(** * Camera discovery and selection (src/camera_utils.py, test_all_cameras.py)

    A shallow embedding of the camera utilities.  The OpenCV capture layer and
    the console are the outside world of these functions; they are modelled by
    an explicit state: a host that answers every [cv2.VideoCapture] call, a
    log of the device and console events in the order they happen, and the
    script of what the operator does at the prompts.  The Python functions
    become computations in a small state-and-exception monad over that
    state. *)

From Stdlib Require Import ZArith List Ascii String Sorting.Sorted Lia.
From stdpp Require Import base list strings pretty.

Open Scope string_scope.
Open Scope Z_scope.

(** ** Python built-ins used by the source *)

Module Py.

Definition nl : string := String "010"%char "".

(** [str.isspace] on the ASCII range: TAB..CR, FS..US and the blank. *)
Definition isspace (a : ascii) : bool :=
  let n := Z.of_N (N_of_ascii a) in
  ((9 <=? n) && (n <=? 13)) || ((28 <=? n) && (n <=? 31)) || (n =? 32).

Fixpoint lstrip (s : string) : string :=
  match s with
  | EmptyString => EmptyString
  | String a r => if isspace a then lstrip r else s
  end.

Fixpoint rstrip (s : string) : string :=
  match s with
  | EmptyString => EmptyString
  | String a r =>
      match rstrip r with
      | EmptyString => if isspace a then EmptyString else String a EmptyString
      | r' => String a r'
      end
  end.

(** [s.strip()] *)
Definition strip (s : string) : string := rstrip (lstrip s).

Definition digit_of (a : ascii) : option Z :=
  let n := Z.of_N (N_of_ascii a) in
  if (48 <=? n) && (n <=? 57) then Some (n - 48) else None.

(** The digits after the first one; a single underscore may separate two
    digits. *)
Fixpoint digits_tail (s : string) (acc : Z) (after_underscore : bool) : option Z :=
  match s with
  | EmptyString => if after_underscore then None else Some acc
  | String a r =>
      if Ascii.eqb a "_"%char then
        if after_underscore then None else digits_tail r acc true
      else
        match digit_of a with
        | Some d => digits_tail r (10 * acc + d) false
        | None => None
        end
  end.

Definition unsigned_int (s : string) : option Z :=
  match s with
  | EmptyString => None
  | String a r =>
      match digit_of a with
      | Some d => digits_tail r d false
      | None => None
      end
  end.

(** [int(s)] for a string of ASCII characters: [None] stands for the
    [ValueError] that Python raises.  Digits of other scripts and CPython's
    limit on the number of digits are outside this model. *)
Definition int (s : string) : option Z :=
  match strip s with
  | String "+" r => unsigned_int r
  | String "-" r => Z.opp <$> unsigned_int r
  | r => unsigned_int r
  end.

(** [str(z)] and [str(l)] as f-strings format an int and a list of ints. *)
Definition str (z : Z) : string := pretty z.

Fixpoint join (sep : string) (l : list string) : string :=
  match l with
  | [] => ""
  | [s] => s
  | s :: r => s +:+ sep +:+ join sep r
  end.

Definition str_list (l : list Z) : string := "[" +:+ join ", " (map str l) +:+ "]".

(** ["=" * 50] *)
Fixpoint times (s : string) (n : nat) : string :=
  match n with
  | O => ""
  | S k => s +:+ times s k
  end.

(** [range(n)] *)
Definition range (n : Z) : list Z := seqZ 0 n.

(** [x in l] *)
Definition contains (x : Z) (l : list Z) : bool := bool_decide (x ∈ l).

End Py.

(** ** The host: what the capture layer answers *)

(** What a frame read on an opened device does: it delivers a frame, reports
    failure, or never comes back. *)
Inductive ReadOutcome : Type :=
| ReadOk
| ReadFails
| ReadBlocks.

(** What one [cv2.VideoCapture(index)] call meets. *)
Record Device : Type := mkDevice {
  dev_opens : bool;
  dev_read : ReadOutcome;
  dev_width : Z;
  dev_height : Z;
  dev_backend : string
}.

(** The host answers the [n]-th [VideoCapture] call of the process, made on
    index [i], with [host n i]: devices may come and go between calls, and the
    host may grant or refuse a second session on an index. *)
Definition Host : Type := nat -> Z -> Device.

(** The three results of a probe, as [test_camera] reports them. *)
Inductive ProbeResult : Type :=
| Unavailable
| OpensButNoFrame
| Working.

(** ** Events, state and the monad *)

Inductive Event : Type :=
| EvOpened (h : nat) (index : Z)
| EvOpenFailed (index : Z)
| EvRead (h : nat) (ok : bool)
| EvRelease (h : nat)
| EvPrint (line : string)
| EvPrompt (text : string)
| EvFinalized (h : nat).

(** One action of the operator at a prompt.  The script of the operator is
    what standard input holds: after its last action, standard input is at
    end of file. *)
Inductive Operator : Type :=
| Types (line : string)
| Interrupts.

Record State : Type := mkState {
  host : Host;
  tick : nat;             (* number of VideoCapture calls made so far *)
  trace : list Event;     (* newest event first *)
  stdin : list Operator   (* what the operator has still to do, then end of file *)
}.

Inductive Exn : Type :=
| RuntimeError (msg : string)
| ValueError
| IndexError
| KeyboardInterrupt
| EOFError.

(** A computation returns, raises, or is blocked in a call into the outside
    world that does not come back (a frame read on a device that never
    delivers). *)
Inductive Outcome (A : Type) : Type :=
| Ret (a : A) (st : State)
| Raise (e : Exn) (st : State)
| Blocked (st : State).

Arguments Ret {A} a st.
Arguments Raise {A} e st.
Arguments Blocked {A} st.

Definition M (A : Type) : Type := State -> Outcome A.

Definition ret {A} (a : A) : M A := fun st => Ret a st.

Definition raise {A} (e : Exn) : M A := fun st => Raise e st.

Definition bind {A B} (m : M A) (k : A -> M B) : M B :=
  fun st =>
    match m st with
    | Ret a st' => k a st'
    | Raise e st' => Raise e st'
    | Blocked st' => Blocked st'
    end.

(** [try: m except e: handler e] *)
Definition try_except {A} (m : M A) (handler : Exn -> M A) : M A :=
  fun st =>
    match m st with
    | Raise e st' => handler e st'
    | o => o
    end.

Declare Scope py_scope.
Delimit Scope py_scope with py.
Notation "'let!' x ':=' m 'in' k" := (bind m (fun x => k))
  (at level 10, x name, m at level 100, k at level 200) : py_scope.
Notation "'do!' m 'in' k" := (bind m (fun _ => k))
  (at level 10, m at level 100, k at level 200) : py_scope.
Open Scope py_scope.

Definition final_state {A} (o : Outcome A) : State :=
  match o with
  | Ret _ st => st
  | Raise _ st => st
  | Blocked st => st
  end.

Definition log (e : Event) (st : State) : State :=
  mkState (host st) (tick st) (e :: trace st) (stdin st).

Definition emit (e : Event) : M unit := fun st => Ret tt (log e st).

(** ** The console *)

Definition print (line : string) : M unit := emit (EvPrint line).

(** [input(prompt)]: shows the prompt, then reads a line; at end of file it
    raises [EOFError]. *)
Definition input (prompt : string) : M string :=
  fun st =>
    let st := log (EvPrompt prompt) st in
    match stdin st with
    | [] => Raise EOFError st
    | Types line :: rest =>
        Ret line (mkState (host st) (tick st) (trace st) rest)
    | Interrupts :: rest =>
        Raise KeyboardInterrupt (mkState (host st) (tick st) (trace st) rest)
    end.

(** ** cv2.VideoCapture *)

Record Capture : Type := mkCapture {
  cap_id : nat;
  cap_index : Z;
  cap_dev : Device
}.

(** [cv2.VideoCapture(index)] *)
Definition VideoCapture (index : Z) : M Capture :=
  fun st =>
    let d := host st (tick st) index in
    let cap := mkCapture (tick st) index d in
    let ev := if dev_opens d then EvOpened (tick st) index else EvOpenFailed index in
    Ret cap (mkState (host st) (S (tick st)) (ev :: trace st) (stdin st)).

(** [cap.isOpened()] *)
Definition isOpened (cap : Capture) : bool := dev_opens (cap_dev cap).

(** [ret, _ = cap.read()] *)
Definition cap_read (cap : Capture) : M bool :=
  if isOpened cap then
    match dev_read (cap_dev cap) with
    | ReadOk => do! emit (EvRead (cap_id cap) true) in ret true
    | ReadFails => do! emit (EvRead (cap_id cap) false) in ret false
    | ReadBlocks => fun st => Blocked st
    end
  else ret false.

(** [cap.release()] *)
Definition cap_release (cap : Capture) : M unit :=
  if isOpened cap then emit (EvRelease (cap_id cap)) else ret tt.

(** What CPython does to a capture that goes out of scope while its session
    is open: the object is finalised when its last reference goes, and the
    destructor of [cv2.VideoCapture] closes the session.  The functions
    modelled here release every session they open before they drop the
    capture, or return the capture; the one exception is the first early
    return of [main] in identify_usb_camera.py, where the finaliser is
    written out. *)
Definition finalize (cap : Capture) : M unit :=
  if isOpened cap then emit (EvFinalized (cap_id cap)) else ret tt.

(** ** The pictographs that start the printed lines, as the source files
    spell them *)

Module Icon.

Definition camera : string := "üì∑".
Definition opened : string := "‚úÖ".
Definition cross : string := "‚ùå".
Definition wave : string := "üëã".
Definition working : string := "✅".
Definition warning : string := "⚠️".
Definition missing : string := "❌".

End Icon.

(** ** Loops *)

(** [for x in xs: body], with the variables the body updates passed along. *)
Fixpoint for_in {A S : Type} (xs : list A) (s : S) (body : A -> S -> M S) : M S :=
  match xs with
  | [] => ret s
  | x :: rest => let! s' := body x s in for_in rest s' body
  end.

(** [while True: body]: the body answers [Some a] for [return a] and [None]
    to go round again.  Every round of the one loop of the source that goes
    round again has taken one action of the operator, so the loop is run with
    one unit of fuel more than the operator has actions left, and the fuel
    cannot run out (lemma [prompt_loop_fuel]). *)
Fixpoint while_true {A : Type} (fuel : nat) (body : M (option A)) : M A :=
  match fuel with
  | O => fun st => Blocked st
  | S n =>
      let! r := body in
      match r with
      | Some a => ret a
      | None => while_true n body
      end
  end.

(** [l[i]], negative indices counting from the end. *)
Definition getitem (l : list Z) (i : Z) : M Z :=
  let n := Z.of_nat (length l) in
  let k := if i <? 0 then i + n else i in
  if (k <? 0) || (n <=? k) then raise IndexError
  else
    match l !! Z.to_nat k with
    | Some x => ret x
    | None => raise IndexError
    end.

(** ** src/camera_utils.py *)

Definition default_max_test : Z := 5.

(** The body of the loop of [get_available_cameras], lines 20-25. *)
Definition probe_into (i : Z) (available : list Z) : M (list Z) :=
  let! cap := VideoCapture i in
  if isOpened cap then
    let! ret_ := cap_read cap in
    let available := if ret_ then (available ++ [i])%list else available in
    do! cap_release cap in
    ret available
  else ret available.

Definition get_available_cameras (max_test : Z) : M (list Z) :=
  for_in (Py.range max_test) [] probe_into.

Definition get_camera_info (index : Z) : M (option (Z * Z * string)) :=
  let! cap := VideoCapture index in
  if negb (isOpened cap) then ret None
  else
    let width := dev_width (cap_dev cap) in
    let height := dev_height (cap_dev cap) in
    let backend := dev_backend (cap_dev cap) in
    do! cap_release cap in
    ret (Some (width, height, backend)).

Definition no_cameras_message : string :=
  "No cameras detected! Please connect a camera and try again.".

Definition select_best_camera (prefer_external : bool) : M Z :=
  let! available := get_available_cameras default_max_test in
  if bool_decide (available = []) then raise (RuntimeError no_cameras_message)
  else if (length available =? 1)%nat then
    let! camera_idx := getitem available 0 in
    do! print (Icon.camera +:+ " Using camera " +:+ Py.str camera_idx
               +:+ " (only camera detected)") in
    ret camera_idx
  else if prefer_external then
    let! camera_idx := getitem available (-1) in
    do! print (Icon.camera +:+ " Multiple cameras detected: " +:+ Py.str_list available) in
    do! print (Icon.camera +:+ " Auto-selected camera " +:+ Py.str camera_idx
               +:+ " (external USB camera)") in
    ret camera_idx
  else
    let! camera_idx := getitem available 0 in
    do! print (Icon.camera +:+ " Multiple cameras detected: " +:+ Py.str_list available) in
    do! print (Icon.camera +:+ " Auto-selected camera " +:+ Py.str camera_idx
               +:+ " (built-in camera)") in
    ret camera_idx.

Definition open_failed_message (camera_index : Z) (available : list Z) : string :=
  "Failed to open camera " +:+ Py.str camera_index +:+ ". "
  +:+ "Available cameras: " +:+ Py.str_list available.

Definition info_line (prefix : string) (info : Z * Z * string) : string :=
  let '(width, height, backend) := info in
  prefix +:+ Py.str width +:+ "x" +:+ Py.str height +:+ " (" +:+ backend +:+ ")".

(** Lines 110-111 of [open_camera]: the index to open. *)
Definition resolve_index (camera_index : option Z) (prefer_external : bool) : M Z :=
  match camera_index with
  | None => select_best_camera prefer_external
  | Some i => ret i
  end.

(** Lines 113-126 of [open_camera]: the index is opened and checked. *)
Definition open_resolved (camera_index : Z) : M Capture :=
  let! cap := VideoCapture camera_index in
  if negb (isOpened cap) then
    let! available := get_available_cameras default_max_test in
    raise (RuntimeError (open_failed_message camera_index available))
  else
    let! info := get_camera_info camera_index in
    do! match info with
        | Some i =>
            print (info_line (Icon.opened +:+ " Camera " +:+ Py.str camera_index
                              +:+ " opened: ") i)
        | None => ret tt
        end in
    ret cap.

Definition open_camera (camera_index : option Z) (prefer_external : bool) : M Capture :=
  let! camera_index := resolve_index camera_index prefer_external in
  open_resolved camera_index.

Definition select_prompt (available : list Z) : string :=
  Py.nl +:+ "Select camera index " +:+ Py.str_list available
  +:+ " (or press Enter for auto): ".

(** One round of the [while True] loop of [list_cameras_interactive],
    lines 159-175. *)
Definition prompt_round (available : list Z) : M (option Z) :=
  try_except
    (let! choice := input (select_prompt available) in
     let choice := Py.strip choice in
     if bool_decide (choice = "") then
       let! idx := select_best_camera true in
       ret (Some idx)
     else
       match Py.int choice with
       | None => raise ValueError
       | Some idx =>
           if Py.contains idx available then ret (Some idx)
           else
             do! print (Icon.cross +:+ " Camera " +:+ Py.str idx
                        +:+ " not available. Choose from: " +:+ Py.str_list available) in
             ret None
       end)
    (fun e =>
       match e with
       | ValueError =>
           do! print (Icon.cross +:+ " Invalid input. Enter a number.") in
           ret None
       | KeyboardInterrupt =>
           do! print (Py.nl +:+ Py.nl +:+ Icon.wave +:+ " Cancelled") in
           raise KeyboardInterrupt
       | other => raise other
       end).

Definition prompt_loop (available : list Z) : M Z :=
  fun st => while_true (S (length (stdin st))) (prompt_round available) st.

(** The body of the loop that lists the cameras, lines 145-150. *)
Definition show_camera (idx : Z) : M unit :=
  let! info := get_camera_info idx in
  match info with
  | Some i => print (info_line ("  Camera " +:+ Py.str idx +:+ ": ") i)
  | None => print ("  Camera " +:+ Py.str idx +:+ ": Available")
  end.

(** Lines 141-152 of [list_cameras_interactive]: the list is shown. *)
Definition show_cameras (available : list Z) : M unit :=
  do! print (Py.nl +:+ Icon.camera +:+ " Available Cameras:") in
  do! print (Py.times "=" 50) in
  do! for_in available tt (fun idx _ => show_camera idx) in
  print (Py.times "=" 50).

Definition list_cameras_interactive : M Z :=
  let! available := get_available_cameras default_max_test in
  if bool_decide (available = []) then raise (RuntimeError "No cameras detected!")
  else
    do! show_cameras available in
    if (length available =? 1)%nat then
      let! only := getitem available 0 in
      do! print (Py.nl +:+ "Only one camera available. Using camera " +:+ Py.str only) in
      getitem available 0
    else prompt_loop available.

(** ** test_all_cameras.py *)

Definition test_camera (index : Z) : M bool :=
  let! cap := VideoCapture index in
  if isOpened cap then
    let! ret_ := cap_read cap in
    if ret_ then
      do! print (Icon.working +:+ " Camera " +:+ Py.str index +:+ ": Working - Resolution: "
                 +:+ Py.str (dev_width (cap_dev cap)) +:+ "x"
                 +:+ Py.str (dev_height (cap_dev cap))) in
      do! cap_release cap in
      ret true
    else
      do! print (Icon.warning +:+ " Camera " +:+ Py.str index
                 +:+ ": Opened but can't read frames") in
      do! cap_release cap in
      ret false
  else
    do! print (Icon.missing +:+ " Camera " +:+ Py.str index +:+ ": Not available") in
    ret false.

(** ** Sample hosts *)

Definition webcam : Device := mkDevice true ReadOk 640 480 "V4L2".

Definition absent : Device := mkDevice false ReadFails 0 0 "".

(** Opens, but the first read reports failure. *)
Definition mute : Device := mkDevice true ReadFails 640 480 "V4L2".

(** Opens, but a read never comes back. *)
Definition stuck : Device := mkDevice true ReadBlocks 640 480 "V4L2".

(** The same devices at every call. *)
Definition steady (devices : Z -> Device) : Host := fun _ i => devices i.

(** A built-in camera at index 0 and a USB camera at index 2. *)
Definition two_cameras : Host :=
  steady (fun i => if (i =? 0) || (i =? 2) then webcam else absent).

(** As [two_cameras], but the USB camera is unplugged before the [n]-th
    [VideoCapture] call. *)
Definition usb_unplugged_at (n : nat) : Host :=
  fun k i => if (i =? 2) && (n <=? k)%nat then absent else two_cameras k i.

(** Cameras at 0 and 2, and at index 1 a device that opens without
    delivering frames. *)
Definition three_kinds : Host :=
  steady (fun i => if (i =? 0) || (i =? 2) then webcam
                   else if i =? 1 then mute else absent).

(** A single camera, at index 3. *)
Definition one_camera : Host :=
  steady (fun i => if i =? 3 then webcam else absent).

(** A camera at index 7 only, beyond the default scan bound. *)
Definition camera_seven : Host :=
  steady (fun i => if i =? 7 then webcam else absent).

(** A process that starts on host [h] with the operator about to do
    [script]. *)
Definition start (h : Host) (script : list Operator) : State := mkState h 0 [] script.

(** ** Vocabulary of the properties *)

(** The value a computation returned, if it did. *)
Definition returned {A} (o : Outcome A) : option A :=
  match o with
  | Ret a _ => Some a
  | _ => None
  end.

(** The exception a computation raised, if it did. *)
Definition raised {A} (o : Outcome A) : option Exn :=
  match o with
  | Raise e _ => Some e
  | _ => None
  end.

(** The capture layer answers a read on this device (no read is made on a
    device that does not open). *)
Definition responds (d : Device) : bool :=
  match dev_opens d, dev_read d with
  | true, ReadBlocks => false
  | _, _ => true
  end.

(** The probe result of a device, by the three branches of [test_camera]:
    not opened, opened but no frame, opened and a frame.  A device whose read
    never comes back reaches none of the branches; it is counted here with
    the devices that give no frame. *)
Definition probe_result (d : Device) : ProbeResult :=
  if dev_opens d then
    match dev_read d with
    | ReadOk => Working
    | _ => OpensButNoFrame
    end
  else Unavailable.

Definition working (d : Device) : bool :=
  dev_opens d && match dev_read d with ReadOk => true | _ => false end.

(** The device that the probe of index [i] meets in a scan of [range(bound)]
    started in state [st]: index [i] is the [i]-th call of the scan. *)
Definition met (st : State) (i : Z) : Device :=
  host st (tick st + Z.to_nat i)%nat i.

(** The indices of [idxs] that work when they are probed one call after the
    other, the first at call [t]. *)
Fixpoint survey (h : Host) (t : nat) (idxs : list Z) : list Z :=
  match idxs with
  | [] => []
  | i :: rest => (if working (h t i) then [i] else []) ++ survey h (S t) rest
  end.

(** The handles that are open after the events [tr] (newest first), each
    with the index it is bound to: a session is open from its opening until
    [release()] is called on it or its capture is finalised. *)
Fixpoint drop_handle (h : nat) (l : list (nat * Z)) : list (nat * Z) :=
  match l with
  | [] => []
  | (h', i) :: r => if (h =? h')%nat then r else (h', i) :: drop_handle h r
  end.

Fixpoint held (tr : list Event) : list (nat * Z) :=
  match tr with
  | [] => []
  | EvOpened h i :: past => (h, i) :: held past
  | EvRelease h :: past => drop_handle h (held past)
  | EvFinalized h :: past => drop_handle h (held past)
  | _ :: past => held past
  end.




(** The prompts shown in [tr]. *)
Definition prompts (tr : list Event) : list string :=
  omap (fun e => match e with EvPrompt text => Some text | _ => None end) tr.

(** The state of the process once [cv2.VideoCapture(index)] has been called. *)
Definition after_open (index : Z) (st : State) : State :=
  final_state (VideoCapture index st).

(** The automatic policies as the specification words them, on a given
    device list: the only entry of a list of one, the largest (external) or
    the smallest (built-in) index of a longer list, nothing for the empty
    list. *)
Definition spec_auto_select (prefer_external : bool) (device_list : list Z) : option Z :=
  match device_list with
  | [] => None
  | [only] => Some only
  | first :: rest =>
      Some (if prefer_external then fold_right Z.max first rest
            else fold_right Z.min first rest)
  end.

(** The state after one [VideoCapture] call whose events are [new]. *)
Definition step (st : State) (new : list Event) : State :=
  mkState (host st) (S (tick st)) (new ++ trace st) (stdin st).

(** The lines that [test_camera] prints. *)
Definition working_line (index : Z) (d : Device) : string :=
  Icon.working +:+ " Camera " +:+ Py.str index +:+ ": Working - Resolution: "
  +:+ Py.str (dev_width d) +:+ "x" +:+ Py.str (dev_height d).

Definition no_frame_line (index : Z) : string :=
  Icon.warning +:+ " Camera " +:+ Py.str index +:+ ": Opened but can't read frames".

Definition not_available_line (index : Z) : string :=
  Icon.missing +:+ " Camera " +:+ Py.str index +:+ ": Not available".

(** No session is opened in [tr]. *)
Definition opens_nothing (tr : list Event) : Prop :=
  forall h i, EvOpened h i ∉ tr.

(** [probe], run on [index] in state [st], returns, and the handles that are
    open afterwards are those that were open before: when the device opened,
    the events of the probe start with the opening of a handle and end with
    the release of that handle, and no other handle is opened in between;
    when it did not open, the probe opened nothing. *)
Definition leaves_no_handle {A} (probe : M A) (index : Z) (st : State) : Prop :=
  exists r st' new,
    probe st = Ret r st' /\
    trace st' = (new ++ trace st)%list /\
    held (trace st') = held (trace st) /\
    if dev_opens (host st (tick st) index)
    then exists mid,
        new = (EvRelease (tick st) :: mid ++ [EvOpened (tick st) index])%list /\
        opens_nothing mid
    else opens_nothing new.

(** The frame of a scan of [n] indices: the host and the operator's script
    are untouched, [n] calls were made, and the open handles are those of
    before. *)
Definition scanned (n : nat) (st st' : State) : Prop :=
  host st' = host st /\ tick st' = (tick st + n)%nat /\ stdin st' = stdin st /\
  held (trace st') = held (trace st).

(** [st'] is a later state of the process of [st]: same host, the trace
    extended at its newest end, no call taken back, and the operator's script
    partly consumed. *)
Definition later (st st' : State) : Prop :=
  host st' = host st /\
  (tick st <= tick st')%nat /\
  (exists new, trace st' = (new ++ trace st)%list) /\
  (exists done, stdin st = (done ++ stdin st')%list).

(** Whatever its outcome, [m] leaves the process in a later state. *)
Definition advances {A} (m : M A) : Prop :=
  forall st, later st (final_state (m st)).



(** ** Vocabulary of the prompt loop *)

(** The state once the prompt has been shown and the operator has acted,
    with [rest] still to do. *)
Definition answered (available : list Z) (rest : list Operator) (st : State) : State :=
  mkState (host st) (tick st) (EvPrompt (select_prompt available) :: trace st) rest.

(** A line that the loop does not accept: not empty once stripped, and either
    not a number or a number that is not in the list. *)
Definition rejected (available : list Z) (line : string) : bool :=
  negb (bool_decide (Py.strip line = "")) &&
  match Py.int (Py.strip line) with
  | None => true
  | Some idx => negb (Py.contains idx available)
  end.

(** What the loop prints about a rejected line. *)
Definition rejection_line (available : list Z) (line : string) : string :=
  match Py.int (Py.strip line) with
  | None => Icon.cross +:+ " Invalid input. Enter a number."
  | Some idx =>
      Icon.cross +:+ " Camera " +:+ Py.str idx
      +:+ " not available. Choose from: " +:+ Py.str_list available
  end.

Definition cancelled_line : string := Py.nl +:+ Py.nl +:+ Icon.wave +:+ " Cancelled".

(** The state after the operator has typed the rejected lines [bad] one after
    the other: each was prompted for, taken from the script, and answered by
    its rejection line. *)
Fixpoint reprompted (available : list Z) (bad : list string) (st : State) : State :=
  match bad with
  | [] => st
  | line :: bad' =>
      reprompted available bad'
        (log (EvPrint (rejection_line available line))
             (answered available (tail (stdin st)) st))
  end.

(** [m] leaves the operator alone: whatever its outcome, it shows no prompt
    and takes nothing from the script; and it leaves the host as it is. *)
Definition unattended {A} (m : M A) : Prop :=
  forall st,
    host (final_state (m st)) = host st /\
    stdin (final_state (m st)) = stdin st /\
    prompts (trace (final_state (m st))) = prompts (trace st).

(** The state in which [list_cameras_interactive] has listed the cameras
    [available] that its enumeration returned in state [st1]. *)
Definition listed (available : list Z) (st1 : State) : State :=
  final_state (show_cameras available st1).

Definition only_one_line (only : Z) : string :=
  Py.nl +:+ "Only one camera available. Using camera " +:+ Py.str only.

(** ** test_all_cameras.py, [main] *)

Module TestAllCameras.

Definition icon_search : string := "🔍".
Definition icon_chart : string := "📊".
Definition icon_film : string := "🎥".
Definition icon_cross : string := "❌".

(** Lines 27-32: the scan of [main]. *)
Definition scan : M (list Z) :=
  for_in (Py.range 6) [] (fun i available_cameras =>
    let! found := test_camera i in
    if found then ret (available_cameras ++ [i])%list else ret available_cameras).

Definition summary_line (available_cameras : list Z) : string :=
  "Found " +:+ Py.str (Z.of_nat (length available_cameras))
  +:+ " working camera(s): " +:+ Py.str_list available_cameras.

(** [main].  The live preview of lines 41-69 (windows, key presses and the
    frames of the cameras that are shown) is the parameter [preview], which is
    given the list of the cameras found. *)
Definition main (preview : list Z -> M unit) : M unit :=
  do! print (icon_search +:+ " Scanning for available cameras..." +:+ Py.nl) in
  let! available_cameras := scan in
  do! print (Py.nl +:+ icon_chart +:+ " Summary:") in
  do! print (summary_line available_cameras) in
  if (0 <? length available_cameras)%nat then
    do! print (Py.nl +:+ icon_film +:+ " Testing each camera with live preview...") in
    do! print ("Press any key to move to next camera, 'q' to quit" +:+ Py.nl) in
    preview available_cameras
  else print (Py.nl +:+ icon_cross +:+ " No working cameras found!").

End TestAllCameras.

(** ** identify_usb_camera.py, [main] *)

Module IdentifyUsbCamera.

Definition icon_film : string := "🎥".
Definition icon_cross : string := "❌".
Definition icon_ok : string := "✅".
Definition icon_pin : string := "📌".
Definition icon_memo : string := "📝".

(** Lines 69-74: what is printed about a valid answer. *)
Definition report (choice : string) : M unit :=
  do! print (Py.nl +:+ icon_ok +:+ " You identified Camera " +:+ choice
             +:+ " as your USB camera") in
  do! print (Py.nl +:+ icon_memo +:+ " To use this camera in your face locking system:") in
  do! print ("   Update camera index to " +:+ choice +:+ " in:") in
  do! print "   - src/camera.py" in
  do! print "   - src/face_locking.py" in
  print "   - src/enroll.py (if it uses camera)".

(** [main], which returns the answer or [None].  The loop of lines 34-58 that
    shows the two cameras side by side (frames, windows, key presses) is the
    parameter [show_both], which is given the two captures. *)
Definition main (show_both : Capture -> Capture -> M unit) : M (option string) :=
  do! print (icon_film +:+ " Camera Identification Tool") in
  do! print (Py.times "=" 50) in
  let! cap0 := VideoCapture 0 in
  let! cap1 := VideoCapture 2 in
  if negb (isOpened cap0) then
    do! print (icon_cross +:+ " Camera 0 not available") in
    (* return: [cap1], which is not released, goes out of scope *)
    do! finalize cap1 in
    ret None
  else if negb (isOpened cap1) then
    do! print (icon_cross +:+ " Camera 1 not available") in
    do! cap_release cap0 in
    ret None
  else
    do! print (icon_ok +:+ " Both cameras opened successfully") in
    do! print (Py.nl +:+ icon_pin +:+ " Instructions:") in
    do! print "   - LEFT window = Camera 0" in
    do! print "   - RIGHT window = Camera 1" in
    do! print "   - Identify which one is your USB camera" in
    do! print "   - Press 'q' to quit" in
    do! print (Py.nl +:+ "Showing both cameras now..." +:+ Py.nl) in
    do! show_both cap0 cap1 in
    do! cap_release cap0 in
    do! cap_release cap1 in
    do! print (Py.nl +:+ Py.times "=" 50) in
    do! print "Which camera is your USB camera?" in
    let! line := input "Enter 0 or 1: " in
    let choice := Py.strip line in
    if bool_decide (choice ∈ ["0"; "1"]) then
      do! report choice in
      ret (Some choice)
    else
      do! print (icon_cross +:+ " Invalid choice") in
      ret None.

End IdentifyUsbCamera.

(** ** Vocabulary of the further properties *)

(** The lines printed in [tr], newest first. *)
Definition printed (tr : list Event) : list string :=
  omap (fun e => match e with EvPrint line => Some line | _ => None end) tr.

(** The frame reads made in [tr]. *)
Definition reads (tr : list Event) : list (nat * bool) :=
  omap (fun e => match e with EvRead h ok => Some (h, ok) | _ => None end) tr.

(** A live display that comes back having opened and released no handle and
    taken nothing from the operator's script. *)
Definition keeps_handles (display : M unit) : Prop :=
  forall st, exists st',
    display st = Ret tt st' /\
    held (trace st') = held (trace st) /\
    prompts (trace st') = prompts (trace st) /\
    stdin st' = stdin st.

(** One look at both cameras: a frame of each is read and the operator
    presses q. *)
Definition one_look (cap0 cap1 : Capture) : M unit :=
  do! cap_read cap0 in
  do! cap_read cap1 in
  ret tt.

(** [m] prints nothing, whatever its outcome. *)
Definition silent {A} (m : M A) : Prop :=
  forall st, printed (trace (final_state (m st))) = printed (trace st).

(** The line that [open_camera] prints about the device [d] it found at
    [camera_index]. *)
Definition opened_line (camera_index : Z) (d : Device) : string :=
  info_line (Icon.opened +:+ " Camera " +:+ Py.str camera_index +:+ " opened: ")
            (dev_width d, dev_height d, dev_backend d).

(** A camera at index 0 that only the first call of the process can open:
    a second session, asked for while the first is held, is refused. *)
Definition exclusive_camera : Host :=
  fun k i => if (i =? 0) && (k =? 0)%nat then webcam else absent.

(** Two states of processes that have met the same devices: same host, as
    many calls made, the same handles open and the same script left. *)
Definition same_devices (a b : State) : Prop :=
  host a = host b /\ tick a = tick b /\ held (trace a) = held (trace b) /\
  stdin a = stdin b.

(** The body of the loop of lines 30-32 of test_all_cameras.py. *)
Definition keep_if_found (i : Z) (available_cameras : list Z) : M (list Z) :=
  let! found := test_camera i in
  if found then ret (available_cameras ++ [i])%list else ret available_cameras.

(** Two scans have come to the same point: both returned the same list, or
    both are blocked, having met the same devices. *)
Definition scans_alike (oa ob : Outcome (list Z)) : Prop :=
  match oa, ob with
  | Ret la sa, Ret lb sb => la = lb /\ same_devices sa sb
  | Blocked sa, Blocked sb => same_devices sa sb
  | _, _ => False
  end.

(** The state in which the scan of [main] of test_all_cameras.py has
    returned and its two summary lines are printed. *)
Definition summarized (available_cameras : list Z) (st1 : State) : State :=
  log (EvPrint (TestAllCameras.summary_line available_cameras))
      (log (EvPrint (Py.nl +:+ TestAllCameras.icon_chart +:+ " Summary:")) st1).

Definition preview_lines (st : State) : State :=
  log (EvPrint ("Press any key to move to next camera, 'q' to quit" +:+ Py.nl))
      (log (EvPrint (Py.nl +:+ TestAllCameras.icon_film
                     +:+ " Testing each camera with live preview...")) st).

Definition no_working_line : string :=
  Py.nl +:+ TestAllCameras.icon_cross +:+ " No working cameras found!".

(** The state in which [main] of identify_usb_camera.py has printed its
    title and constructed its two captures, on index 0 and on index 2. *)
Definition both_constructed (st : State) : State :=
  after_open 2
    (after_open 0
       (log (EvPrint (Py.times "=" 50))
            (log (EvPrint (IdentifyUsbCamera.icon_film +:+ " Camera Identification Tool"))
                 st))).

(** The captures that [main] of identify_usb_camera.py constructs when it is
    started in state [st]. *)
Definition cap0_of (st : State) : Capture :=
  mkCapture (tick st) 0 (host st (tick st) 0).

Definition cap1_of (st : State) : Capture :=
  mkCapture (S (tick st)) 2 (host st (S (tick st)) 2).

(** What [main] of identify_usb_camera.py returns for the line that the
    operator typed. *)
Definition answer_of (line : string) : option string :=
  if bool_decide (Py.strip line ∈ ["0"; "1"]) then Some (Py.strip line) else None.

(** The handles on which [release()] was called in [tr], newest first. *)
Definition released (tr : list Event) : list nat :=
  omap (fun e => match e with EvRelease h => Some h | _ => None end) tr.

(** * Properties *)

(** ** One probe, step by step *)

Lemma probe_into_unfold (i : Z) (available : list Z) (st : State) :
  probe_into i available st =
    let h := tick st in
    let d := host st h i in
    if dev_opens d then
      match dev_read d with
      | ReadOk =>
          Ret (available ++ [i])%list (step st [EvRelease h; EvRead h true; EvOpened h i])
      | ReadFails =>
          Ret available (step st [EvRelease h; EvRead h false; EvOpened h i])
      | ReadBlocks => Blocked (step st [EvOpened h i])
      end
    else Ret available (step st [EvOpenFailed i]).
Proof.
  unfold probe_into, bind, VideoCapture, cap_read, cap_release, isOpened; simpl.
  destruct (host st (tick st) i) as [[|] [| |] w hgt b]; reflexivity.
Qed.

Lemma get_camera_info_unfold (index : Z) (st : State) :
  get_camera_info index st =
    let h := tick st in
    let d := host st h index in
    if dev_opens d then
      Ret (Some (dev_width d, dev_height d, dev_backend d))
          (step st [EvRelease h; EvOpened h index])
    else Ret None (step st [EvOpenFailed index]).
Proof.
  unfold get_camera_info, bind, VideoCapture, cap_release, isOpened; simpl.
  destruct (host st (tick st) index) as [[|] r w hgt b]; reflexivity.
Qed.

Lemma test_camera_unfold (index : Z) (st : State) :
  test_camera index st =
    let h := tick st in
    let d := host st h index in
    if dev_opens d then
      match dev_read d with
      | ReadOk =>
          Ret true (step st [EvRelease h; EvPrint (working_line index d);
                             EvRead h true; EvOpened h index])
      | ReadFails =>
          Ret false (step st [EvRelease h; EvPrint (no_frame_line index);
                              EvRead h false; EvOpened h index])
      | ReadBlocks => Blocked (step st [EvOpened h index])
      end
    else Ret false (step st [EvPrint (not_available_line index); EvOpenFailed index]).
Proof.
  unfold test_camera, bind, VideoCapture, cap_read, cap_release, isOpened,
    print, emit; simpl.
  destruct (host st (tick st) index) as [[|] [| |] w hgt b]; reflexivity.
Qed.

(** ** Handles open after a probe *)

Ltac no_open :=
  let h := fresh "h" in
  let i := fresh "i" in
  let Hin := fresh "Hin" in
  intros h i Hin;
  repeat (apply elem_of_cons in Hin as [Hin|Hin]; [discriminate Hin|]);
  now apply elem_of_nil in Hin.

(** C1. Every probe of the source (the loop body of [get_available_cameras],
    [test_camera] and [get_camera_info]) returns with the handles that were
    open before it and no other: on the path where the device does not open
    it opens nothing, and on the paths where the device opens (the read
    failing or succeeding) its last event is the release of the handle that
    its first event opened. *)
Theorem probe_releases_its_handle (index : Z) (st : State) :
  responds (host st (tick st) index) = true ->
  (forall available, leaves_no_handle (probe_into index available) index st) /\
  leaves_no_handle (test_camera index) index st /\
  leaves_no_handle (get_camera_info index) index st.
Proof.
  intros Hresp. unfold leaves_no_handle.
  split; [intros available; rewrite probe_into_unfold
         |split; [rewrite test_camera_unfold | rewrite get_camera_info_unfold]];
    cbv zeta; unfold responds in Hresp;
    destruct (dev_opens (host st (tick st) index)) eqn:Ho;
    try (destruct (dev_read (host st (tick st) index)) eqn:Hr; try discriminate Hresp);
    do 3 eexists; unfold step;
    (split; [reflexivity|]; split; [reflexivity|]; simpl trace; split;
     [ first [ now rewrite Nat.eqb_refl | reflexivity
             | simpl; now rewrite Nat.eqb_refl ]
     | first [ no_open
             | (eexists; split; [ exact (eq_refl (EvRelease (tick st) :: [_] ++ [_])%list) | no_open ])
             | (eexists; split; [ exact (eq_refl (EvRelease (tick st) :: [_; _] ++ [_])%list) | no_open ])
             | (eexists; split; [ exact (eq_refl (EvRelease (tick st) :: [] ++ [_])%list) | no_open ]) ] ]).
Qed.

Lemma probe_releases_its_handle_witness :
  (probe_result (host (start three_kinds []) 0%nat 0) = Working /\
   responds (host (start three_kinds []) (tick (start three_kinds [])) 0) = true /\
   leaves_no_handle (test_camera 0) 0 (start three_kinds [])) /\
  (probe_result (host (start three_kinds []) 0%nat 1) = OpensButNoFrame /\
   responds (host (start three_kinds []) (tick (start three_kinds [])) 1) = true /\
   leaves_no_handle (test_camera 1) 1 (start three_kinds [])) /\
  (probe_result (host (start three_kinds []) 0%nat 3) = Unavailable /\
   responds (host (start three_kinds []) (tick (start three_kinds [])) 3) = true /\
   leaves_no_handle (test_camera 3) 3 (start three_kinds [])).
Proof.
  repeat split; try reflexivity.
  - apply (probe_releases_its_handle 0 (start three_kinds [])); reflexivity.
  - apply (probe_releases_its_handle 1 (start three_kinds [])); reflexivity.
  - apply (probe_releases_its_handle 3 (start three_kinds [])); reflexivity.
Defined.

(** ** Enumeration *)

Lemma working_probe_result (d : Device) :
  working d = true <-> probe_result d = Working.
Proof.
  unfold working, probe_result.
  destruct (dev_opens d), (dev_read d); simpl; split; congruence.
Qed.

Lemma survey_elem_of (h : Host) (idxs : list Z) :
  forall (t : nat) (i : Z),
    i ∈ survey h t idxs <->
    exists k : nat, idxs !! k = Some i /\ working (h (t + k)%nat i) = true.
Proof.
  induction idxs as [|j rest IH]; intros t i; simpl.
  - split; [intros Hin; now apply elem_of_nil in Hin | intros (k & Hk & _); discriminate Hk].
  - rewrite elem_of_app, IH. split.
    + intros [Hin | (k & Hk & Hw)].
      * destruct (working (h t j)) eqn:Hw; [|now apply elem_of_nil in Hin].
        apply list_elem_of_singleton in Hin as ->.
        exists 0%nat. rewrite Nat.add_0_r. now split.
      * exists (S k). replace (t + S k)%nat with (S t + k)%nat by lia. now split.
    + intros ([|k] & Hk & Hw).
      * simpl in Hk. injection Hk as ->. rewrite Nat.add_0_r in Hw.
        left. rewrite Hw. apply list_elem_of_here.
      * right. exists k. replace (S t + k)%nat with (t + S k)%nat by lia. now split.
Qed.

Lemma survey_sublist (h : Host) (idxs : list Z) :
  forall t : nat, survey h t idxs `sublist_of` idxs.
Proof.
  induction idxs as [|j rest IH]; intros t; simpl; [constructor|].
  destruct (working (h t j)); simpl.
  - apply sublist_skip, IH.
  - apply sublist_cons, IH.
Qed.

Lemma StronglySorted_sublist {A} (R : A -> A -> Prop) (l1 l2 : list A) :
  l1 `sublist_of` l2 -> StronglySorted R l2 -> StronglySorted R l1.
Proof.
  induction 1 as [|x l1 l2 Hsub IH|x l1 l2 Hsub IH]; intros Hs.
  - constructor.
  - apply StronglySorted_inv in Hs as [Hs Hall]. constructor; [now apply IH|].
    apply List.Forall_forall. intros y Hy.
    apply (proj1 (List.Forall_forall _ _) Hall).
    apply list_elem_of_In. apply list_elem_of_In in Hy. eapply elem_of_sublist; eauto.
  - apply StronglySorted_inv in Hs as [Hs _]. now apply IH.
Qed.

Lemma range_ascending (n : Z) : StronglySorted Z.lt (Py.range n).
Proof.
  unfold Py.range. generalize 0 as a.
  induction (Z.to_nat n) as [|k IH] eqn:Hk in n |- *; intros a.
  - destruct (decide (0 < n)) as [Hpos|Hneg]; [lia|].
    replace (seqZ a n) with (@nil Z); [constructor|].
    symmetry. apply length_zero_iff_nil. rewrite length_seqZ. lia.
  - rewrite seqZ_cons by lia. constructor.
    + apply IH. lia.
    + apply List.Forall_forall. intros y Hy.
      apply list_elem_of_In, elem_of_seqZ in Hy. lia.
Qed.

Lemma range_lookup (n : Z) (k : nat) (i : Z) :
  Py.range n !! k = Some i <-> i = Z.of_nat k /\ Z.of_nat k < n.
Proof. unfold Py.range. rewrite lookup_seqZ. lia. Qed.

Lemma scan_cases (idxs : list Z) :
  forall (acc : list Z) (st : State),
    (exists st',
        for_in idxs acc probe_into st
        = Ret (acc ++ survey (host st) (tick st) idxs)%list st' /\
        scanned (length idxs) st st' /\
        forall (k : nat) (i : Z),
          idxs !! k = Some i -> responds (host st (tick st + k)%nat i) = true) \/
    (exists st' (k : nat) (i : Z),
        for_in idxs acc probe_into st = Blocked st' /\
        idxs !! k = Some i /\
        responds (host st (tick st + k)%nat i) = false /\
        held (trace st') = ((tick st + k)%nat, i) :: held (trace st)).
Proof.
  induction idxs as [|j rest IH]; intros acc st.
  - left. exists st. simpl. rewrite app_nil_r. unfold scanned.
    repeat split; try reflexivity; try lia. intros k i Hk. discriminate Hk.
  - simpl. unfold bind. rewrite probe_into_unfold. cbv zeta.
    unfold working, responds.
    destruct (dev_opens (host st (tick st) j)) eqn:Ho;
      [destruct (dev_read (host st (tick st) j)) eqn:Hr|].
    4: specialize (IH acc (step st [EvOpenFailed j])).
    3: { right. exists (step st [EvOpened (tick st) j]), 0%nat, j.
         rewrite Nat.add_0_r, Ho, Hr. repeat split; reflexivity. }
    1: specialize (IH (acc ++ [j])%list
                      (step st [EvRelease (tick st); EvRead (tick st) true;
                                EvOpened (tick st) j])).
    2: specialize (IH acc (step st [EvRelease (tick st); EvRead (tick st) false;
                                    EvOpened (tick st) j])).
    all: destruct IH as [(st' & Heq & (Hh & Ht & Hs & Hheld) & Hall)
                        |(st' & k & i & Heq & Hk & Hstuck & Hheld)];
      simpl in *; rewrite ?Nat.eqb_refl in Hheld;
      [ left; exists st'; rewrite Heq; simpl; rewrite <- ?app_assoc; simpl;
        split; [reflexivity|]; split;
        [ unfold scanned; simpl; repeat split; try assumption; lia
        | intros [|k] i Hk;
          [ simpl in Hk; injection Hk as <-; rewrite Nat.add_0_r, Ho, ?Hr; reflexivity
          | replace (tick st + S k)%nat with (S (tick st) + k)%nat by lia;
            apply Hall; exact Hk ] ]
      | right; exists st', (S k), i; rewrite Heq;
        replace (tick st + S k)%nat with (S (tick st) + k)%nat by lia;
        repeat split; assumption ].
Qed.

Lemma survey_range_elem_of (st : State) (bound i : Z) :
  i ∈ survey (host st) (tick st) (Py.range bound) <->
  0 <= i < bound /\ probe_result (met st i) = Working.
Proof.
  rewrite survey_elem_of. unfold met. split.
  - intros (k & Hk & Hw). apply range_lookup in Hk as [-> Hlt].
    rewrite Nat2Z.id. apply working_probe_result in Hw. split; [lia | exact Hw].
  - intros [Hi Hw]. exists (Z.to_nat i). split.
    + apply range_lookup. lia.
    + now apply working_probe_result.
Qed.

Lemma enumerate_returns (bound : Z) (st : State) :
  (forall i, 0 <= i < bound -> responds (met st i) = true) ->
  exists st',
    get_available_cameras bound st
    = Ret (survey (host st) (tick st) (Py.range bound)) st'.
Proof.
  intros Hresp. unfold get_available_cameras.
  destruct (scan_cases (Py.range bound) [] st)
    as [(st' & Heq & _ & _) | (st' & k & i & _ & Hk & Hstuck & _)].
  - exists st'. exact Heq.
  - apply range_lookup in Hk as [-> Hlt].
    specialize (Hresp (Z.of_nat k) ltac:(lia)). unfold met in Hresp.
    rewrite Nat2Z.id in Hresp. congruence.
Qed.

(** C2. For every scan bound [bound >= 0] and every host whose devices answer
    their read, [get_available_cameras bound] returns a list that is strictly
    ascending, a subsequence of [0 .. bound-1], of at most [bound] entries,
    without duplicates, and that holds exactly the indices below the bound
    whose probe result is [Working]. *)
Theorem enumerate_working_indices (bound : Z) (st : State) :
  0 <= bound ->
  (forall i, 0 <= i < bound -> responds (met st i) = true) ->
  exists l st',
    get_available_cameras bound st = Ret l st' /\
    StronglySorted Z.lt l /\
    l `sublist_of` Py.range bound /\
    Z.of_nat (length l) <= bound /\
    NoDup l /\
    (forall i, i ∈ l <-> 0 <= i < bound /\ probe_result (met st i) = Working).
Proof.
  intros Hbound Hresp.
  destruct (enumerate_returns bound st Hresp) as (st' & Heq).
  exists (survey (host st) (tick st) (Py.range bound)), st'.
  pose proof (survey_sublist (host st) (Py.range bound) (tick st)) as Hsub.
  split; [exact Heq|]. split; [|split; [exact Hsub|split; [|split]]].
  - eapply StronglySorted_sublist; [exact Hsub | apply range_ascending].
  - apply sublist_length in Hsub.
    change (length (Py.range bound)) with (length (seqZ 0 bound)) in Hsub.
    rewrite length_seqZ in Hsub. lia.
  - eapply sublist_NoDup; [apply NoDup_seqZ | exact Hsub].
  - intros i. apply survey_range_elem_of.
Qed.

Lemma enumerate_working_indices_witness :
  exists l st',
    get_available_cameras 5 (start two_cameras []) = Ret l st' /\
    StronglySorted Z.lt l /\
    l `sublist_of` Py.range 5 /\
    Z.of_nat (length l) <= 5 /\
    NoDup l /\
    (forall i, i ∈ l <->
               0 <= i < 5 /\ probe_result (met (start two_cameras []) i) = Working).
Proof.
  apply (enumerate_working_indices 5 (start two_cameras [])); [lia|].
  intros i _. unfold met, start, two_cameras, steady; simpl.
  destruct ((i =? 0) || (i =? 2)); reflexivity.
Defined.

Example enumerate_two_cameras :
  returned (get_available_cameras 5 (start two_cameras [])) = Some [0; 2] /\
  returned (get_available_cameras 5 (start three_kinds [])) = Some [0; 2] /\
  returned (get_available_cameras 0 (start two_cameras [])) = Some [] /\
  returned (get_available_cameras (-3) (start two_cameras [])) = Some [].
Proof. repeat split; reflexivity. Qed.

Lemma enumerate_inv (n : Z) (st st1 : State) (l : list Z) :
  get_available_cameras n st = Ret l st1 ->
  l = survey (host st) (tick st) (Py.range n) /\
  scanned (length (Py.range n)) st st1 /\
  StronglySorted Z.lt l.
Proof.
  unfold get_available_cameras. intros Heq.
  destruct (scan_cases (Py.range n) [] st)
    as [(st' & Heq' & Hsc & _) | (st' & k & i & Heq' & _)];
    rewrite Heq' in Heq; [|discriminate Heq].
  injection Heq as <- <-. simpl. repeat split; try apply Hsc.
  eapply StronglySorted_sublist; [apply survey_sublist | apply range_ascending].
Qed.

(** ** Selection *)

Lemma getitem_first (x : Z) (r : list Z) (st : State) :
  getitem (x :: r) 0 st = Ret x st.
Proof.
  unfold getitem. cbv zeta. change (0 <? 0) with false. cbv iota.
  replace (Z.of_nat (length (x :: r)) <=? 0) with false
    by (symmetry; apply Z.leb_gt; simpl length; lia).
  reflexivity.
Qed.

Lemma getitem_last (l : list Z) (x : Z) (st : State) :
  last l = Some x -> getitem l (-1) st = Ret x st.
Proof.
  intros Hlast. unfold getitem. cbv zeta. change (-1 <? 0) with true. cbv iota.
  assert (Hlen : (0 < length l)%nat).
  { destruct l; [discriminate Hlast | simpl; lia]. }
  replace (-1 + Z.of_nat (length l) <? 0) with false by (symmetry; apply Z.ltb_ge; lia).
  replace (Z.of_nat (length l) <=? -1 + Z.of_nat (length l)) with false
    by (symmetry; apply Z.leb_gt; lia).
  simpl orb. cbv iota.
  replace (Z.to_nat (-1 + Z.of_nat (length l))) with (pred (length l)) by lia.
  rewrite <- last_lookup, Hlast. reflexivity.
Qed.

Lemma ascending_min (x : Z) (rest : list Z) :
  StronglySorted Z.lt (x :: rest) -> fold_right Z.min x rest = x.
Proof.
  induction rest as [|y r IH]; intros Hs; [reflexivity|].
  apply StronglySorted_inv in Hs as [Hs Hall].
  apply StronglySorted_inv in Hs as [Hs _].
  apply Forall_cons in Hall as [Hxy Hall].
  simpl. rewrite IH; [lia|]. now constructor.
Qed.

Lemma ascending_max (x : Z) (rest : list Z) :
  StronglySorted Z.lt (x :: rest) ->
  last (x :: rest) = Some (fold_right Z.max x rest).
Proof.
  revert x. induction rest as [|y r IH]; intros x Hs; [reflexivity|].
  apply StronglySorted_inv in Hs as [Hs Hall].
  apply Forall_cons in Hall as [Hxy Hall].
  change (last (x :: y :: r)) with (last (y :: r)). rewrite (IH y Hs).
  f_equal. simpl. clear IH Hs. induction r as [|z r IHr]; simpl; [lia|].
  apply Forall_cons in Hall as [Hxz Hall]. specialize (IHr Hall). lia.
Qed.

Lemma fold_max_spec (first : Z) (rest : list Z) :
  fold_right Z.max first rest ∈ first :: rest /\
  forall j, j ∈ first :: rest -> j <= fold_right Z.max first rest.
Proof.
  induction rest as [|y r [IHin IHub]]; simpl.
  - split; [apply list_elem_of_here|]. intros j Hj.
    apply list_elem_of_singleton in Hj. lia.
  - split.
    + destruct (Z.max_spec y (fold_right Z.max first r)) as [[_ ->]|[_ ->]].
      * apply elem_of_cons in IHin as [->|Hin];
          [apply list_elem_of_here | now do 2 apply list_elem_of_further].
      * apply list_elem_of_further, list_elem_of_here.
    + intros j Hj. apply elem_of_cons in Hj as [->|Hj].
      * specialize (IHub first (list_elem_of_here _ _)). lia.
      * apply elem_of_cons in Hj as [->|Hj]; [lia|].
        specialize (IHub j (list_elem_of_further _ _ _ Hj)). lia.
Qed.

Lemma fold_min_spec (first : Z) (rest : list Z) :
  fold_right Z.min first rest ∈ first :: rest /\
  forall j, j ∈ first :: rest -> fold_right Z.min first rest <= j.
Proof.
  induction rest as [|y r [IHin IHub]]; simpl.
  - split; [apply list_elem_of_here|]. intros j Hj.
    apply list_elem_of_singleton in Hj. lia.
  - split.
    + destruct (Z.min_spec y (fold_right Z.min first r)) as [[_ ->]|[_ ->]].
      * apply list_elem_of_further, list_elem_of_here.
      * apply elem_of_cons in IHin as [->|Hin];
          [apply list_elem_of_here | now do 2 apply list_elem_of_further].
    + intros j Hj. apply elem_of_cons in Hj as [->|Hj].
      * specialize (IHub first (list_elem_of_here _ _)). lia.
      * apply elem_of_cons in Hj as [->|Hj]; [lia|].
        specialize (IHub j (list_elem_of_further _ _ _ Hj)). lia.
Qed.

(** What [select_best_camera] does once its enumeration has returned
    [available] in state [st1]. *)
Lemma select_best_camera_unfold (prefer_external : bool) (st st1 : State)
    (available : list Z) :
  get_available_cameras default_max_test st = Ret available st1 ->
  match available with
  | [] =>
      select_best_camera prefer_external st
      = Raise (RuntimeError no_cameras_message) st1
  | [only] =>
      exists line,
        select_best_camera prefer_external st = Ret only (log (EvPrint line) st1)
  | first :: rest =>
      exists line1 line2,
        select_best_camera prefer_external st
        = Ret (if prefer_external then fold_right Z.max first rest
               else fold_right Z.min first rest)
              (log (EvPrint line2) (log (EvPrint line1) st1))
  end.
Proof.
  intros Heq. pose proof (enumerate_inv _ _ _ _ Heq) as (_ & _ & Hsorted).
  unfold select_best_camera, bind. rewrite Heq.
  destruct available as [|a [|b r]].
  - reflexivity.
  - rewrite bool_decide_eq_false_2 by discriminate.
    change (length [a] =? 1)%nat with true. cbv beta iota.
    rewrite getitem_first. eexists. reflexivity.
  - rewrite bool_decide_eq_false_2 by discriminate.
    change (length (a :: b :: r) =? 1)%nat with false. cbv beta iota.
    destruct prefer_external.
    + rewrite (getitem_last _ _ _ (ascending_max _ _ Hsorted)).
      do 2 eexists. reflexivity.
    + rewrite getitem_first, (ascending_min _ _ Hsorted).
      do 2 eexists. reflexivity.
Qed.

Lemma select_best_camera_returned (prefer_external : bool) (st st1 : State)
    (available : list Z) :
  get_available_cameras default_max_test st = Ret available st1 ->
  returned (select_best_camera prefer_external st)
  = spec_auto_select prefer_external available.
Proof.
  intros Heq. pose proof (select_best_camera_unfold prefer_external _ _ _ Heq) as H.
  destruct available as [|a [|b r]].
  - now rewrite H.
  - destruct H as (line & ->). reflexivity.
  - destruct H as (line1 & line2 & ->). reflexivity.
Qed.

(** C3. Once its enumeration has returned the device list [available],
    [select_best_camera] answers as the automatic policy of the
    specification does on that list: with both preferences it returns the
    only entry of a list of one and raises the no-cameras [RuntimeError] on
    the empty list; on a longer list it returns an entry that no entry
    exceeds when external cameras are preferred, and an entry that exceeds
    no entry when built-in cameras are preferred. *)
Theorem select_best_camera_policy (prefer_external : bool) (st st1 : State)
    (available : list Z) :
  get_available_cameras default_max_test st = Ret available st1 ->
  returned (select_best_camera prefer_external st)
  = spec_auto_select prefer_external available /\
  (available = [] ->
   select_best_camera prefer_external st
   = Raise (RuntimeError no_cameras_message) st1) /\
  (forall only, available = [only] ->
   returned (select_best_camera prefer_external st) = Some only) /\
  ((1 < length available)%nat ->
   exists idx,
     returned (select_best_camera prefer_external st) = Some idx /\
     idx ∈ available /\
     forall j, j ∈ available -> if prefer_external then j <= idx else idx <= j).
Proof.
  intros Heq. pose proof (select_best_camera_unfold prefer_external _ _ _ Heq) as H.
  destruct available as [|a [|b r]].
  - rewrite H. repeat split; try discriminate. simpl. lia.
  - destruct H as (line & ->). repeat split; try discriminate.
    + intros only [= <-]. reflexivity.
    + simpl. lia.
  - destruct H as (line1 & line2 & ->). repeat split; try discriminate.
    intros _. eexists. split; [reflexivity|].
    destruct prefer_external.
    + apply (fold_max_spec a (b :: r)).
    + apply (fold_min_spec a (b :: r)).
Qed.

Lemma select_best_camera_policy_witness :
  get_available_cameras default_max_test (start two_cameras [])
  = Ret [0; 2] (final_state (get_available_cameras default_max_test (start two_cameras []))) /\
  (returned (select_best_camera true (start two_cameras []))
   = spec_auto_select true [0; 2] /\
   ([0; 2] = [] ->
    select_best_camera true (start two_cameras [])
    = Raise (RuntimeError no_cameras_message)
        (final_state (get_available_cameras default_max_test (start two_cameras [])))) /\
   (forall only, [0; 2] = [only] ->
    returned (select_best_camera true (start two_cameras [])) = Some only) /\
   ((1 < length [0; 2])%nat ->
    exists idx,
      returned (select_best_camera true (start two_cameras [])) = Some idx /\
      idx ∈ [0; 2] /\
      forall j, j ∈ [0; 2] -> if true then j <= idx else idx <= j)).
Proof.
  split; [reflexivity|].
  apply (select_best_camera_policy true (start two_cameras [])). reflexivity.
Defined.

Example select_examples :
  returned (select_best_camera true (start two_cameras [])) = Some 2 /\
  returned (select_best_camera false (start two_cameras [])) = Some 0 /\
  returned (select_best_camera true (start one_camera [])) = Some 3 /\
  raised (select_best_camera true (start (steady (fun _ => absent)) []))
  = Some (RuntimeError no_cameras_message).
Proof. repeat split; reflexivity. Qed.

(** ** Every computation moves the process forward *)

Lemma later_refl (st : State) : later st st.
Proof.
  unfold later. repeat split; [lia | now exists [] | now exists []].
Qed.

Lemma later_trans (st1 st2 st3 : State) : later st1 st2 -> later st2 st3 -> later st1 st3.
Proof.
  intros (Hh1 & Ht1 & (n1 & Hn1) & (d1 & Hd1)) (Hh2 & Ht2 & (n2 & Hn2) & (d2 & Hd2)).
  unfold later. repeat split.
  - congruence.
  - lia.
  - exists (n2 ++ n1)%list. rewrite Hn2, Hn1. now rewrite app_assoc.
  - exists (d1 ++ d2)%list. rewrite Hd1, Hd2. now rewrite app_assoc.
Qed.

Lemma later_log (e : Event) (st : State) : later st (log e st).
Proof.
  unfold later, log; simpl. repeat split; [lia | now exists [e] | now exists []].
Qed.

Lemma later_step (st : State) (new : list Event) : later st (step st new).
Proof.
  unfold later, step; simpl. repeat split; [lia | now exists new | now exists []].
Qed.

Lemma advances_ret {A} (a : A) : advances (ret a).
Proof. intros st. apply later_refl. Qed.

Lemma advances_raise {A} (e : Exn) : advances (@raise A e).
Proof. intros st. apply later_refl. Qed.

Lemma advances_bind {A B} (m : M A) (k : A -> M B) :
  advances m -> (forall a, advances (k a)) -> advances (bind m k).
Proof.
  intros Hm Hk st. unfold bind. specialize (Hm st).
  destruct (m st) as [a st'|e st'|st']; simpl in *; try exact Hm.
  eapply later_trans; [exact Hm | apply Hk].
Qed.

Lemma advances_try_except {A} (m : M A) (handler : Exn -> M A) :
  advances m -> (forall e, advances (handler e)) -> advances (try_except m handler).
Proof.
  intros Hm Hk st. unfold try_except. specialize (Hm st).
  destruct (m st) as [a st'|e st'|st']; simpl in *; try exact Hm.
  eapply later_trans; [exact Hm | apply Hk].
Qed.

Lemma advances_print (line : string) : advances (print line).
Proof. intros st. apply later_log. Qed.

Lemma advances_input (prompt : string) : advances (input prompt).
Proof.
  intros st. unfold input. cbv zeta. simpl stdin.
  destruct (stdin st) as [|[line|] rest] eqn:Hin; simpl.
  - apply later_log.
  - unfold later; simpl. repeat split; [lia | now exists [EvPrompt prompt]|].
    exists [Types line]. exact Hin.
  - unfold later; simpl. repeat split; [lia | now exists [EvPrompt prompt]|].
    exists [Interrupts]. exact Hin.
Qed.

Lemma advances_getitem (l : list Z) (i : Z) : advances (getitem l i).
Proof.
  intros st. unfold getitem. cbv zeta.
  destruct (_ || _); [apply later_refl|].
  destruct (l !! _); apply later_refl.
Qed.

Lemma advances_for_in {A S} (xs : list A) (body : A -> S -> M S) :
  (forall x s, advances (body x s)) -> forall s, advances (for_in xs s body).
Proof.
  intros Hbody. induction xs as [|x rest IH]; intros s; simpl.
  - apply advances_ret.
  - apply advances_bind; [apply Hbody | intros s'; apply IH].
Qed.

Lemma advances_while_true {A} (body : M (option A)) :
  advances body -> forall fuel, advances (while_true fuel body).
Proof.
  intros Hbody. induction fuel as [|n IH]; simpl.
  - intros st. apply later_refl.
  - apply advances_bind; [exact Hbody|]. intros [a|]; [apply advances_ret | exact IH].
Qed.

Lemma advances_probe_into (i : Z) (available : list Z) : advances (probe_into i available).
Proof.
  intros st. rewrite probe_into_unfold. cbv zeta.
  destruct (dev_opens _); [destruct (dev_read _)|]; apply later_step.
Qed.

Lemma advances_get_camera_info (index : Z) : advances (get_camera_info index).
Proof.
  intros st. rewrite get_camera_info_unfold. cbv zeta.
  destruct (dev_opens _); apply later_step.
Qed.

Lemma advances_get_available_cameras (n : Z) : advances (get_available_cameras n).
Proof. apply advances_for_in. intros x s. apply advances_probe_into. Qed.

Lemma advances_select_best_camera (prefer_external : bool) :
  advances (select_best_camera prefer_external).
Proof.
  unfold select_best_camera.
  apply advances_bind; [apply advances_get_available_cameras|]. intros available.
  destruct (bool_decide _); [apply advances_raise|].
  destruct (_ =? _)%nat; [|destruct prefer_external];
    repeat (first [ apply advances_ret | apply advances_getitem | apply advances_print
                  | apply advances_bind | intro ]).
Qed.

Lemma open_resolved_unfold (camera_index : Z) (st : State) :
  open_resolved camera_index st =
    let h := tick st in
    let d := host st h camera_index in
    if dev_opens d then
      (let! info := get_camera_info camera_index in
       do! match info with
           | Some i =>
               print (info_line (Icon.opened +:+ " Camera " +:+ Py.str camera_index
                                 +:+ " opened: ") i)
           | None => ret tt
           end in
       ret (mkCapture h camera_index d)) (step st [EvOpened h camera_index])
    else
      (let! available := get_available_cameras default_max_test in
       raise (RuntimeError (open_failed_message camera_index available)))
        (step st [EvOpenFailed camera_index]).
Proof.
  unfold open_resolved. unfold bind at 1. unfold VideoCapture, isOpened. cbv zeta.
  cbn [cap_dev]. destruct (dev_opens (host st (tick st) camera_index)); reflexivity.
Qed.

Lemma advances_open_resolved (camera_index : Z) : advances (open_resolved camera_index).
Proof.
  intros st. rewrite open_resolved_unfold. cbv zeta.
  destruct (dev_opens (host st (tick st) camera_index)).
  - eapply later_trans; [apply (later_step st)|].
    apply advances_bind; [apply advances_get_camera_info|]. intros [info|];
      (apply advances_bind; [first [apply advances_print | apply advances_ret]|]);
      intros _; apply advances_ret.
  - eapply later_trans; [apply (later_step st)|].
    apply advances_bind; [apply advances_get_available_cameras|].
    intros available. apply advances_raise.
Qed.

(** ** Opening a camera *)

Lemma open_camera_explicit (i : Z) (prefer_external : bool) (st : State) :
  open_camera (Some i) prefer_external st = open_resolved i st.
Proof. reflexivity. Qed.

Lemma open_resolved_trace (i : Z) (st : State) :
  exists new,
    trace (final_state (open_resolved i st))
    = (new ++ (if dev_opens (host st (tick st) i)
               then EvOpened (tick st) i else EvOpenFailed i) :: trace st)%list.
Proof.
  pose proof (open_resolved_unfold i st) as Hu. cbv zeta in Hu.
  destruct (dev_opens (host st (tick st) i));
    match type of Hu with
    | _ = ?m (step st ?ev) =>
        assert (Hl : advances m);
        [|specialize (Hl (step st ev));
          destruct Hl as (_ & _ & (new & Hnew) & _); exists new; rewrite Hu; exact Hnew]
    end.
  - apply advances_bind; [apply advances_get_camera_info|]. intros [info|];
      (apply advances_bind; [first [apply advances_print | apply advances_ret]|]);
      intros _; apply advances_ret.
  - apply advances_bind; [apply advances_get_available_cameras|].
    intros available. apply advances_raise.
Qed.

Lemma open_resolved_success (i : Z) (st : State) :
  dev_opens (host st (tick st) i) = true ->
  exists st',
    open_resolved i st = Ret (mkCapture (tick st) i (host st (tick st) i)) st'.
Proof.
  intros Ho. rewrite open_resolved_unfold. cbv zeta. rewrite Ho.
  unfold bind. rewrite get_camera_info_unfold. cbv zeta.
  change (host (step st [EvOpened (tick st) i])) with (host st).
  change (tick (step st [EvOpened (tick st) i])) with (S (tick st)).
  clear Ho. destruct (dev_opens (host st (S (tick st)) i)); eexists; reflexivity.
Qed.

(** C6. Opening with an explicit index [i] consults no device list: the call
    is the opening of [i] itself, so its first event is the attempt to open
    [i] (no probe of any index comes before it), and when the host opens [i]
    the handle bound to [i] is returned, whatever an enumeration would have
    listed. *)
Theorem explicit_index_opened_directly (i : Z) (prefer_external : bool) (st : State) :
  let d := host st (tick st) i in
  open_camera (Some i) prefer_external st = open_resolved i st /\
  (exists new,
      trace (final_state (open_camera (Some i) prefer_external st))
      = (new ++ (if dev_opens d then EvOpened (tick st) i else EvOpenFailed i)
             :: trace st)%list) /\
  (dev_opens d = true ->
   exists st',
     open_camera (Some i) prefer_external st = Ret (mkCapture (tick st) i d) st').
Proof.
  cbv zeta. rewrite open_camera_explicit.
  split; [reflexivity|]. split; [apply open_resolved_trace | apply open_resolved_success].
Qed.

Lemma explicit_index_opened_directly_witness :
  returned (get_available_cameras default_max_test (start camera_seven [])) = Some [] /\
  dev_opens (host (start camera_seven []) (tick (start camera_seven [])) 7) = true /\
  exists st',
    open_camera (Some 7) true (start camera_seven [])
    = Ret (mkCapture 0 7 webcam) st'.
Proof.
  split; [reflexivity|]. split; [reflexivity|].
  apply (explicit_index_opened_directly 7 true (start camera_seven [])). reflexivity.
Defined.


Lemma after_open_opened (idx : Z) (st : State) :
  dev_opens (host st (tick st) idx) = true ->
  after_open idx st = step st [EvOpened (tick st) idx].
Proof.
  intros Ho. unfold after_open, VideoCapture, step. simpl. now rewrite Ho.
Qed.




(** ** The prompt loop *)

Lemma select_best_camera_cases (prefer_external : bool) (st : State) :
  (exists st', select_best_camera prefer_external st = Blocked st') \/
  (exists st', select_best_camera prefer_external st
               = Raise (RuntimeError no_cameras_message) st') \/
  (exists idx st', select_best_camera prefer_external st = Ret idx st').
Proof.
  destruct (scan_cases (Py.range default_max_test) [] st)
    as [(st1 & Heq & _) | (st1 & k & i & Heq & _)].
  - rewrite app_nil_l in Heq.
    remember (survey (host st) (tick st) (Py.range default_max_test)) as l eqn:Hl.
    clear Hl.
    pose proof (select_best_camera_unfold prefer_external st st1 l Heq) as H.
    destruct l as [|a [|b r]].
    + right; left. eexists. exact H.
    + right; right. destruct H as (line & H). do 2 eexists. exact H.
    + right; right. destruct H as (line1 & line2 & H). do 2 eexists. exact H.
  - left. exists st1. unfold select_best_camera, bind.
    change (get_available_cameras default_max_test st)
      with (for_in (Py.range default_max_test) [] probe_into st).
    now rewrite Heq.
Qed.

Lemma prompt_round_unfold (available : list Z) (st : State) :
  prompt_round available st =
    match stdin st with
    | [] => Raise EOFError (log (EvPrompt (select_prompt available)) st)
    | Interrupts :: rest =>
        Raise KeyboardInterrupt (log (EvPrint cancelled_line) (answered available rest st))
    | Types line :: rest =>
        if bool_decide (Py.strip line = "") then
          match select_best_camera true (answered available rest st) with
          | Ret idx st' => Ret (Some idx) st'
          | Raise e st' => Raise e st'
          | Blocked st' => Blocked st'
          end
        else
          match Py.int (Py.strip line) with
          | Some idx =>
              if Py.contains idx available
              then Ret (Some idx) (answered available rest st)
              else Ret None (log (EvPrint (rejection_line available line))
                                 (answered available rest st))
          | None =>
              Ret None (log (EvPrint (rejection_line available line))
                            (answered available rest st))
          end
    end.
Proof.
  unfold prompt_round, try_except, bind at 1, input. cbv zeta. simpl stdin.
  destruct (stdin st) as [|[line|] rest]; [reflexivity| |reflexivity].
  change (mkState (host (log (EvPrompt (select_prompt available)) st))
            (tick (log (EvPrompt (select_prompt available)) st))
            (trace (log (EvPrompt (select_prompt available)) st)) rest)
    with (answered available rest st).
  unfold rejection_line.
  destruct (bool_decide (Py.strip line = "")) eqn:Hempty.
  - unfold bind.
    destruct (select_best_camera_cases true (answered available rest st))
      as [(st' & ->) | [(st' & ->) | (idx & st' & ->)]]; reflexivity.
  - destruct (Py.int (Py.strip line)) as [idx|]; [|reflexivity].
    destruct (Py.contains idx available); reflexivity.
Qed.

Lemma prompt_loop_unfold (available : list Z) (st : State) :
  prompt_loop available st =
    match prompt_round available st with
    | Ret (Some idx) st' => Ret idx st'
    | Ret None st' => while_true (length (stdin st)) (prompt_round available) st'
    | Raise e st' => Raise e st'
    | Blocked st' => Blocked st'
    end.
Proof.
  unfold prompt_loop. simpl. unfold bind.
  destruct (prompt_round available st) as [[idx|] st'|e st'|st']; reflexivity.
Qed.

Lemma prompt_loop_rejected (available : list Z) (line : string) (rest : list Operator)
    (st : State) :
  stdin st = Types line :: rest ->
  rejected available line = true ->
  prompt_loop available st
  = prompt_loop available
      (log (EvPrint (rejection_line available line)) (answered available rest st)).
Proof.
  intros Hin Hrej. rewrite prompt_loop_unfold, prompt_round_unfold, Hin.
  unfold rejected in Hrej. apply andb_true_iff in Hrej as [Hne Hrej].
  apply negb_true_iff in Hne. rewrite Hne.
  destruct (Py.int (Py.strip line)) as [idx|].
  - apply negb_true_iff in Hrej. rewrite Hrej. reflexivity.
  - reflexivity.
Qed.

Lemma prompt_loop_reprompted (available : list Z) (bad : list string) :
  forall (rest : list Operator) (st : State),
    stdin st = (map Types bad ++ rest)%list ->
    Forall (fun line => rejected available line = true) bad ->
    prompt_loop available st = prompt_loop available (reprompted available bad st) /\
    stdin (reprompted available bad st) = rest /\
    host (reprompted available bad st) = host st /\
    tick (reprompted available bad st) = tick st /\
    prompts (trace (reprompted available bad st))
    = (repeat (select_prompt available) (length bad) ++ prompts (trace st))%list.
Proof.
  induction bad as [|line bad IH]; intros rest st Hin Hbad.
  - simpl. repeat split; try reflexivity. exact Hin.
  - apply Forall_cons in Hbad as [Hrej Hbad]. simpl in Hin.
    rewrite (prompt_loop_rejected available line _ st Hin Hrej).
    simpl reprompted. rewrite Hin. simpl tail.
    specialize (IH rest
                  (log (EvPrint (rejection_line available line))
                       (answered available (map Types bad ++ rest) st))
                  eq_refl Hbad).
    destruct IH as (IH1 & IH2 & IH3 & IH4 & IH5).
    repeat split; try assumption.
    rewrite IH5.
    change (prompts (trace (log _ (answered available _ st))))
      with (select_prompt available :: prompts (trace st)).
    simpl length. generalize (select_prompt available) (prompts (trace st)).
    clear. intros p l. induction (length bad) as [|n IHn]; simpl; [reflexivity|].
    now rewrite IHn.
Qed.

Lemma prompt_round_again (available : list Z) (st st' : State) :
  prompt_round available st = Ret None st' ->
  exists line rest, stdin st = Types line :: rest /\ stdin st' = rest.
Proof.
  rewrite prompt_round_unfold.
  destruct (stdin st) as [|[line|] rest]; try discriminate.
  intros H. exists line, rest. split; [reflexivity|].
  destruct (bool_decide _).
  - destruct (select_best_camera _ _); discriminate H.
  - destruct (Py.int _) as [idx|]; [destruct (Py.contains _ _)|];
      try discriminate H; now injection H as <-.
Qed.

(** The fuel of the loop does not run out: any fuel above the number of
    actions that the operator has left gives the outcome of [prompt_loop]. *)
Lemma prompt_loop_fuel (available : list Z) (fuel : nat) :
  forall st,
    (length (stdin st) < fuel)%nat ->
    while_true fuel (prompt_round available) st = prompt_loop available st.
Proof.
  induction fuel as [fuel IH] using lt_wf_ind. intros st Hlt.
  destruct fuel as [|n]; [lia|].
  rewrite prompt_loop_unfold. simpl. unfold bind.
  destruct (prompt_round available st) as [[idx|] st'|e st'|st'] eqn:Hround;
    try reflexivity.
  apply prompt_round_again in Hround as (line & rest & Hin & Hin').
  rewrite Hin in Hlt. simpl in Hlt.
  rewrite (IH n) by (rewrite ?Hin'; lia).
  rewrite (IH (length (stdin st))) by (rewrite ?Hin', ?Hin; simpl; lia).
  reflexivity.
Qed.

Lemma prompt_loop_empty_line (available : list Z) (line : string)
    (rest : list Operator) (st : State) :
  stdin st = Types line :: rest ->
  Py.strip line = "" ->
  prompt_loop available st = select_best_camera true (answered available rest st).
Proof.
  intros Hin Hempty. rewrite prompt_loop_unfold, prompt_round_unfold, Hin.
  rewrite bool_decide_eq_true_2 by exact Hempty.
  destruct (select_best_camera_cases true (answered available rest st))
    as [(st' & ->) | [(st' & ->) | (idx & st' & ->)]]; reflexivity.
Qed.

(** C8, as the specification states it, is refuted by an operator whose
    input ends after a rejected line: the loop prompts again, [input] raises
    [EOFError] at the end of file, no [except] clause of the loop catches
    it, and the selection ends with that exception, which is neither an
    index, nor the automatic selection, nor a cancellation. *)
Lemma prompt_loop_ends_at_end_of_file :
  rejected [0; 2] "5" = true /\
  prompt_loop [0; 2] (start two_cameras [Types "5"])
  = Raise EOFError
      (mkState two_cameras 0
         [EvPrompt (select_prompt [0; 2]);
          EvPrint (rejection_line [0; 2] "5");
          EvPrompt (select_prompt [0; 2])] []) /\
  raised (list_cameras_interactive (start two_cameras [Types "5"])) = Some EOFError.
Proof. repeat split; reflexivity. Qed.

(** C8, amended. Whatever the list and whatever the operator does, the loop
    goes through the rejected lines [bad] that the operator types first (a
    number that is not in the list or a line that is no number), prompting
    again after each, and its outcome is decided by what comes first after
    them: it returns the index that a listed number names, it ends as
    [select_best_camera] does on an empty line, on an interrupt it raises
    [KeyboardInterrupt] at once, with no further prompt and the rest of the
    script untouched, and at the end of the input it raises the [EOFError]
    of [input], which the loop does not catch. *)
Theorem prompt_loop_outcome (available : list Z) (bad : list string)
    (rest : list Operator) (st : State) :
  stdin st = (map Types bad ++ rest)%list ->
  Forall (fun line => rejected available line = true) bad ->
  let st_r := reprompted available bad st in
  stdin st_r = rest /\
  prompts (trace st_r)
  = (repeat (select_prompt available) (length bad) ++ prompts (trace st))%list /\
  match rest with
  | [] =>
      prompt_loop available st
      = Raise EOFError (log (EvPrompt (select_prompt available)) st_r)
  | Interrupts :: rest' =>
      prompt_loop available st
      = Raise KeyboardInterrupt
          (log (EvPrint cancelled_line) (answered available rest' st_r))
  | Types line :: rest' =>
      if rejected available line then
        prompt_loop available st
        = prompt_loop available
            (log (EvPrint (rejection_line available line))
                 (answered available rest' st_r))
      else if bool_decide (Py.strip line = "") then
        prompt_loop available st
        = select_best_camera true (answered available rest' st_r)
      else
        exists idx,
          Py.int (Py.strip line) = Some idx /\ idx ∈ available /\
          prompt_loop available st = Ret idx (answered available rest' st_r)
  end.
Proof.
  intros Hin Hbad. cbv zeta.
  destruct (prompt_loop_reprompted available bad rest st Hin Hbad)
    as (Hloop & Hrest & _ & _ & Hprompts).
  split; [exact Hrest|]. split; [exact Hprompts|].
  rewrite Hloop. clear Hloop Hprompts Hin Hbad.
  generalize dependent (reprompted available bad st). intros st_r Hrest.
  destruct rest as [|[line|] rest'].
  - rewrite prompt_loop_unfold, prompt_round_unfold, Hrest. reflexivity.
  - destruct (rejected available line) eqn:Hrej.
    + now apply prompt_loop_rejected.
    + unfold rejected in Hrej. case_bool_decide as Hempty.
      * now apply (prompt_loop_empty_line available line rest' st_r).
      * rewrite prompt_loop_unfold, prompt_round_unfold, Hrest.
        rewrite bool_decide_eq_false_2 by exact Hempty.
        simpl in Hrej. destruct (Py.int (Py.strip line)) as [idx|]; [|discriminate Hrej].
        apply negb_false_iff in Hrej. rewrite Hrej. exists idx.
        split; [reflexivity|]. split; [|reflexivity].
        unfold Py.contains in Hrej. now apply bool_decide_eq_true in Hrej.
  - rewrite prompt_loop_unfold, prompt_round_unfold, Hrest. reflexivity.
Qed.

Lemma prompt_loop_outcome_witness :
  let st := start two_cameras [Types "5"; Types "abc"; Types "2"; Interrupts] in
  let st_r := reprompted [0; 2] ["5"; "abc"] st in
  stdin st = (map Types ["5"; "abc"] ++ [Types "2"; Interrupts])%list /\
  Forall (fun line => rejected [0; 2] line = true) ["5"; "abc"] /\
  stdin st_r = [Types "2"; Interrupts] /\
  prompts (trace st_r) = [select_prompt [0; 2]; select_prompt [0; 2]] /\
  exists idx,
    Py.int (Py.strip "2") = Some idx /\ idx ∈ [0; 2] /\
    prompt_loop [0; 2] st = Ret idx (answered [0; 2] [Interrupts] st_r).
Proof.
  cbv zeta.
  assert (Hbad : Forall (fun line => rejected [0; 2] line = true) ["5"; "abc"])
    by (repeat constructor).
  split; [reflexivity|]. split; [exact Hbad|].
  exact (prompt_loop_outcome [0; 2] ["5"; "abc"] [Types "2"; Interrupts]
           (start two_cameras [Types "5"; Types "abc"; Types "2"; Interrupts])
           eq_refl Hbad).
Defined.

(** ** Computations that leave the operator alone *)

Lemma unattended_ret {A} (a : A) : unattended (ret a).
Proof. intros st. repeat split. Qed.

Lemma unattended_raise {A} (e : Exn) : unattended (@raise A e).
Proof. intros st. repeat split. Qed.

Lemma unattended_bind {A B} (m : M A) (k : A -> M B) :
  unattended m -> (forall a, unattended (k a)) -> unattended (bind m k).
Proof.
  intros Hm Hk st. unfold bind. specialize (Hm st).
  destruct (m st) as [a st'|e st'|st']; simpl in *; try exact Hm.
  destruct Hm as (H1 & H2 & H3). destruct (Hk a st') as (K1 & K2 & K3).
  repeat split; congruence.
Qed.

Lemma unattended_print (line : string) : unattended (print line).
Proof. intros st. repeat split. Qed.

Lemma unattended_getitem (l : list Z) (i : Z) : unattended (getitem l i).
Proof.
  intros st. unfold getitem. cbv zeta.
  destruct (_ || _); [repeat split|]. destruct (l !! _); repeat split.
Qed.

Lemma unattended_for_in {A S} (xs : list A) (body : A -> S -> M S) :
  (forall x s, unattended (body x s)) -> forall s, unattended (for_in xs s body).
Proof.
  intros Hbody. induction xs as [|x rest IH]; intros s; simpl.
  - apply unattended_ret.
  - apply unattended_bind; [apply Hbody | intros s'; apply IH].
Qed.

Lemma unattended_probe_into (i : Z) (available : list Z) :
  unattended (probe_into i available).
Proof.
  intros st. rewrite probe_into_unfold. cbv zeta.
  destruct (dev_opens _); [destruct (dev_read _)|]; repeat split.
Qed.

Lemma unattended_get_camera_info (index : Z) : unattended (get_camera_info index).
Proof.
  intros st. rewrite get_camera_info_unfold. cbv zeta.
  destruct (dev_opens _); repeat split.
Qed.

Lemma unattended_get_available_cameras (n : Z) : unattended (get_available_cameras n).
Proof. apply unattended_for_in. intros x s. apply unattended_probe_into. Qed.

Lemma unattended_show_cameras (available : list Z) : unattended (show_cameras available).
Proof.
  unfold show_cameras.
  repeat (apply unattended_bind; [apply unattended_print | intros _]).
  apply unattended_bind; [|intros _; apply unattended_print].
  apply unattended_for_in. intros idx _. unfold show_camera.
  apply unattended_bind; [apply unattended_get_camera_info|].
  intros [info|]; apply unattended_print.
Qed.

(** ** Interactive selection *)

Lemma show_camera_returns (idx : Z) (st : State) :
  exists st', show_camera idx st = Ret tt st'.
Proof.
  unfold show_camera, bind. rewrite get_camera_info_unfold. cbv zeta.
  destruct (dev_opens _); eexists; reflexivity.
Qed.

Lemma show_cameras_returns (available : list Z) (st : State) :
  show_cameras available st = Ret tt (listed available st).
Proof.
  unfold listed.
  assert (Hloop : forall l st0, exists st', for_in l tt (fun idx _ => show_camera idx) st0 = Ret tt st').
  { induction l as [|idx l IH]; intros st0; simpl.
    - eexists. reflexivity.
    - unfold bind. destruct (show_camera_returns idx st0) as (st' & ->).
      apply IH. }
  unfold show_cameras, bind, print, emit.
  destruct (Hloop available (log (EvPrint (Py.times "=" 50))
                               (log (EvPrint (Py.nl +:+ Icon.camera +:+ " Available Cameras:")) st)))
    as (st' & ->).
  reflexivity.
Qed.

Lemma list_cameras_interactive_unfold (st st1 : State) (available : list Z) :
  get_available_cameras default_max_test st = Ret available st1 ->
  list_cameras_interactive st =
    match available with
    | [] => Raise (RuntimeError "No cameras detected!") st1
    | [only] => Ret only (log (EvPrint (only_one_line only)) (listed available st1))
    | _ => prompt_loop available (listed available st1)
    end.
Proof.
  intros Heq. unfold list_cameras_interactive. unfold bind at 1. rewrite Heq.
  destruct available as [|a [|b r]].
  - reflexivity.
  - rewrite bool_decide_eq_false_2 by discriminate.
    unfold bind at 1. rewrite show_cameras_returns.
    change (length [a] =? 1)%nat with true. cbv beta iota.
    unfold bind. rewrite getitem_first. simpl. rewrite getitem_first. reflexivity.
  - rewrite bool_decide_eq_false_2 by discriminate.
    unfold bind at 1. rewrite show_cameras_returns. reflexivity.
Qed.

Lemma enumeration_unattended (n : Z) (st st1 : State) (l : list Z) :
  get_available_cameras n st = Ret l st1 ->
  host st1 = host st /\ stdin st1 = stdin st /\
  prompts (trace st1) = prompts (trace st).
Proof.
  intros Heq. pose proof (unattended_get_available_cameras n st) as H.
  now rewrite Heq in H.
Qed.

Lemma listed_unattended (available : list Z) (st1 : State) :
  host (listed available st1) = host st1 /\
  stdin (listed available st1) = stdin st1 /\
  prompts (trace (listed available st1)) = prompts (trace st1).
Proof. apply unattended_show_cameras. Qed.

(** C10. When the enumeration of [list_cameras_interactive] returns a list
    of one index, the function returns that index, having shown no prompt
    and taken nothing from the operator's script. *)
Theorem single_camera_without_prompt (st st1 : State) (only : Z) :
  get_available_cameras default_max_test st = Ret [only] st1 ->
  exists st',
    list_cameras_interactive st = Ret only st' /\
    stdin st' = stdin st /\
    prompts (trace st') = prompts (trace st).
Proof.
  intros Heq. rewrite (list_cameras_interactive_unfold _ _ _ Heq).
  eexists. split; [reflexivity|].
  destruct (enumeration_unattended _ _ _ _ Heq) as (_ & Hs & Hp).
  destruct (listed_unattended [only] st1) as (_ & Hs' & Hp').
  split; simpl; congruence.
Qed.

Lemma single_camera_without_prompt_witness :
  get_available_cameras default_max_test (start one_camera [Types "0"; Interrupts])
  = Ret [3] (final_state (get_available_cameras default_max_test
                            (start one_camera [Types "0"; Interrupts]))) /\
  exists st',
    list_cameras_interactive (start one_camera [Types "0"; Interrupts]) = Ret 3 st' /\
    stdin st' = [Types "0"; Interrupts] /\
    prompts (trace st') = [].
Proof.
  split; [reflexivity|].
  exact (single_camera_without_prompt (start one_camera [Types "0"; Interrupts]) _ 3 eq_refl).
Defined.

(** C9, as the specification states it, is refuted by a USB camera that is
    unplugged while the list is on the screen: the list shown is [0, 2], on
    which the prefer-external policy answers 2, but the empty line makes the
    function return 0. *)
Lemma interactive_empty_line_counterexample :
  returned (get_available_cameras default_max_test
              (start (usb_unplugged_at 7) [Types ""])) = Some [0; 2] /\
  spec_auto_select true [0; 2] = Some 2 /\
  returned (list_cameras_interactive (start (usb_unplugged_at 7) [Types ""])) = Some 0.
Proof. repeat split; reflexivity. Qed.

(** C9, amended. When the list shown has more than one entry and the
    operator answers the prompt with an empty line, interactive selection
    ends as [select_best_camera] with the external preference does when it is
    run at that moment: on the list [fresh] of a new enumeration, which is
    made on the same host after the calls that listed the cameras.  It
    returns the answer of the prefer-external policy on the list that was
    shown whenever the new enumeration returns that list again. *)
Theorem interactive_empty_line_reselects (st st1 : State) (available : list Z)
    (line : string) (rest : list Operator) :
  get_available_cameras default_max_test st = Ret available st1 ->
  (1 < length available)%nat ->
  stdin st = Types line :: rest ->
  Py.strip line = "" ->
  let st_p := answered available rest (listed available st1) in
  host st_p = host st /\
  list_cameras_interactive st = select_best_camera true st_p /\
  (forall fresh st2,
      get_available_cameras default_max_test st_p = Ret fresh st2 ->
      returned (list_cameras_interactive st) = spec_auto_select true fresh) /\
  (forall st2,
      get_available_cameras default_max_test st_p = Ret available st2 ->
      returned (list_cameras_interactive st) = spec_auto_select true available).
Proof.
  intros Heq Hlen Hin Hempty. cbv zeta.
  destruct (enumeration_unattended _ _ _ _ Heq) as (Hh & Hs & _).
  destruct (listed_unattended available st1) as (Hh' & Hs' & _).
  assert (Hrun : list_cameras_interactive st
                 = select_best_camera true (answered available rest (listed available st1))).
  { rewrite (list_cameras_interactive_unfold _ _ _ Heq).
    destruct available as [|a [|b r]]; simpl in Hlen; try lia.
    apply (prompt_loop_empty_line _ line); [congruence | exact Hempty]. }
  split; [simpl; congruence|]. split; [exact Hrun|].
  assert (Hfresh : forall fresh st2,
             get_available_cameras default_max_test
               (answered available rest (listed available st1)) = Ret fresh st2 ->
             returned (list_cameras_interactive st) = spec_auto_select true fresh).
  { intros fresh st2 Hscan. rewrite Hrun.
    apply (select_best_camera_returned true _ _ _ Hscan). }
  split; [exact Hfresh|]. intros st2. apply Hfresh.
Qed.

Lemma interactive_empty_line_reselects_witness :
  get_available_cameras default_max_test (start two_cameras [Types " "])
  = Ret [0; 2] (final_state (get_available_cameras default_max_test
                               (start two_cameras [Types " "]))) /\
  (1 < length [0; 2])%nat /\
  Py.strip " " = "" /\
  list_cameras_interactive (start two_cameras [Types " "])
  = select_best_camera true
      (answered [0; 2] []
         (listed [0; 2]
            (final_state (get_available_cameras default_max_test
                            (start two_cameras [Types " "]))))) /\
  returned (list_cameras_interactive (start two_cameras [Types " "])) = Some 2.
Proof.
  split; [reflexivity|]. split; [simpl; lia|]. split; [reflexivity|].
  destruct (interactive_empty_line_reselects (start two_cameras [Types " "]) _ [0; 2] " " []
              eq_refl ltac:(simpl; lia) eq_refl eq_refl) as (_ & Hrun & _ & _).
  split; [exact Hrun | reflexivity].
Defined.

(** ** Handles open at one time *)





























(** ** Reads that never come back *)

(** C4, as the specification states it, is refuted by a device that opens
    and whose read never comes back: no timeout is set on the read, so the
    probes and the enumeration stay blocked in it, the handle still open. *)
Lemma probe_blocks_on_stuck_device :
  dev_read (host (start (steady (fun _ => stuck)) []) 0%nat 0) = ReadBlocks /\
  test_camera 0 (start (steady (fun _ => stuck)) [])
  = Blocked (mkState (steady (fun _ => stuck)) 1 [EvOpened 0 0] []) /\
  probe_into 0 [] (start (steady (fun _ => stuck)) [])
  = Blocked (mkState (steady (fun _ => stuck)) 1 [EvOpened 0 0] []) /\
  get_available_cameras default_max_test (start (steady (fun _ => stuck)) [])
  = Blocked (mkState (steady (fun _ => stuck)) 1 [EvOpened 0 0] []).
Proof. repeat split; reflexivity. Qed.

(** C4, amended. The probes set no timeout of their own: a probe returns
    exactly when the read of the capture layer comes back (with the device
    counted as working when the read delivered a frame and as not working
    when it reported failure); when the device opens and its read never
    comes back, the probe is blocked in that read with the handle open, and
    so is an enumeration whose range holds such an index. *)
Theorem probe_returns_when_read_returns (index : Z) (st : State) :
  let d := host st (tick st) index in
  (responds d = true ->
   (exists st', test_camera index st = Ret (working d) st') /\
   (forall available, exists st',
       probe_into index available st
       = Ret (if working d then available ++ [index] else available)%list st')) /\
  (responds d = false ->
   test_camera index st = Blocked (step st [EvOpened (tick st) index]) /\
   (forall available,
       probe_into index available st = Blocked (step st [EvOpened (tick st) index])) /\
   held (trace (step st [EvOpened (tick st) index]))
   = (tick st, index) :: held (trace st)) /\
  (forall bound i,
      0 <= i < bound -> responds (met st i) = false ->
      exists st', get_available_cameras bound st = Blocked st').
Proof.
  cbv zeta.
  split; [|split].
  - unfold responds, working. intros Hresp. split; [|intros available];
      [rewrite test_camera_unfold | rewrite probe_into_unfold]; cbv zeta;
      destruct (dev_opens (host st (tick st) index));
      try destruct (dev_read (host st (tick st) index));
      try discriminate Hresp; eexists; reflexivity.
  - unfold responds. intros Hresp. rewrite test_camera_unfold.
    split; [|split; [intros available; rewrite probe_into_unfold|reflexivity]];
      cbv zeta;
      destruct (dev_opens (host st (tick st) index));
      try destruct (dev_read (host st (tick st) index));
      try discriminate Hresp; reflexivity.
  - intros bound i Hi Hstuck. unfold get_available_cameras.
    destruct (scan_cases (Py.range bound) [] st)
      as [(st' & _ & _ & Hall) | (st' & k & j & Heq & _)].
    + specialize (Hall (Z.to_nat i) i). unfold met in Hstuck.
      rewrite Hall in Hstuck; [discriminate Hstuck|]. apply range_lookup. lia.
    + exists st'. exact Heq.
Qed.

Lemma probe_returns_when_read_returns_witness :
  responds (host (start two_cameras []) (tick (start two_cameras [])) 2) = true /\
  (exists st', test_camera 2 (start two_cameras []) = Ret true st') /\
  responds (host (start (steady (fun _ => stuck)) [])
              (tick (start (steady (fun _ => stuck)) [])) 0) = false /\
  test_camera 0 (start (steady (fun _ => stuck)) [])
  = Blocked (step (start (steady (fun _ => stuck)) []) [EvOpened 0 0]).
Proof.
  split; [reflexivity|]. split.
  - apply (probe_returns_when_read_returns 2 (start two_cameras [])). reflexivity.
  - split; [reflexivity|].
    apply (probe_returns_when_read_returns 0 (start (steady (fun _ => stuck)) [])).
    reflexivity.
Defined.

(** * Further properties *)

(** ** The enumeration as a whole *)

Lemma silent_bind {A B} (m : M A) (k : A -> M B) :
  silent m -> (forall a, silent (k a)) -> silent (bind m k).
Proof.
  intros Hm Hk st. unfold bind. specialize (Hm st).
  destruct (m st) as [a st'|e st'|st']; simpl in *; try exact Hm.
  now rewrite Hk.
Qed.

Lemma silent_for_in {A S} (xs : list A) (body : A -> S -> M S) :
  (forall x s, silent (body x s)) -> forall s, silent (for_in xs s body).
Proof.
  intros Hbody. induction xs as [|x rest IH]; intros s; simpl.
  - intros st. reflexivity.
  - apply silent_bind; [apply Hbody | intros s'; apply IH].
Qed.

Lemma silent_probe_into (i : Z) (available : list Z) : silent (probe_into i available).
Proof.
  intros st. rewrite probe_into_unfold. cbv zeta.
  destruct (dev_opens _); [destruct (dev_read _)|]; reflexivity.
Qed.

Lemma silent_get_available_cameras (n : Z) : silent (get_available_cameras n).
Proof. apply silent_for_in. intros x s. apply silent_probe_into. Qed.

Lemma enumerate_nothing (bound : Z) (st : State) :
  bound <= 0 -> get_available_cameras bound st = Ret [] st.
Proof.
  intros Hbound. unfold get_available_cameras, Py.range.
  rewrite seqZ_nil by exact Hbound. reflexivity.
Qed.

(** X1. [get_available_cameras] never raises.  When it returns it has made
    one [VideoCapture] call for each index below the bound and none else,
    printed nothing, shown no prompt, and left the host, the operator's
    script and the open handles as they were; with a bound of zero or less
    it returns the empty list at once, without any call. *)
Theorem enumeration_frame (bound : Z) (st : State) :
  (forall e st', get_available_cameras bound st <> Raise e st') /\
  (forall l st',
      get_available_cameras bound st = Ret l st' ->
      tick st' = (tick st + Z.to_nat bound)%nat /\
      host st' = host st /\
      stdin st' = stdin st /\
      held (trace st') = held (trace st) /\
      printed (trace st') = printed (trace st) /\
      prompts (trace st') = prompts (trace st)) /\
  (bound <= 0 -> get_available_cameras bound st = Ret [] st).
Proof.
  split; [|split].
  - intros e st' Heq. unfold get_available_cameras in Heq.
    destruct (scan_cases (Py.range bound) [] st)
      as [(st1 & Heq' & _) | (st1 & k & i & Heq' & _)];
      rewrite Heq' in Heq; discriminate Heq.
  - intros l st' Heq.
    pose proof (enumerate_inv _ _ _ _ Heq) as (_ & (Hh & Ht & Hs & Hheld) & _).
    pose proof (silent_get_available_cameras bound st) as Hsilent.
    pose proof (enumeration_unattended _ _ _ _ Heq) as (_ & _ & Hp).
    rewrite Heq in Hsilent. simpl in Hsilent.
    unfold Py.range in Ht. rewrite length_seqZ in Ht.
    repeat split; assumption.
  - apply enumerate_nothing.
Qed.

Lemma survey_app (h : Host) (l1 l2 : list Z) :
  forall t : nat,
    survey h t (l1 ++ l2) = (survey h t l1 ++ survey h (t + length l1) l2)%list.
Proof.
  induction l1 as [|i l1 IH]; intros t; simpl.
  - now rewrite Nat.add_0_r.
  - rewrite IH, <- app_assoc. do 3 f_equal. lia.
Qed.

(** X2. A wider scan extends a narrower one: when [get_available_cameras b2]
    returns, so does [get_available_cameras b1] for every [b1 <= b2] from the
    same state, and the list of the wider scan is the list of the narrower
    one followed by indices from [b1] up to [b2 - 1]. *)
Theorem wider_scan_extends (b1 b2 : Z) (st st2 : State) (l2 : list Z) :
  b1 <= b2 ->
  get_available_cameras b2 st = Ret l2 st2 ->
  exists l1 st1 more,
    get_available_cameras b1 st = Ret l1 st1 /\
    l2 = (l1 ++ more)%list /\
    Forall (fun i => b1 <= i < b2) more.
Proof.
  intros Hle Heq2.
  pose proof (enumerate_inv _ _ _ _ Heq2) as (Hl2 & _ & _).
  assert (Hin2 : forall i, i ∈ l2 -> 0 <= i < b2).
  { intros i Hi. rewrite Hl2 in Hi. now apply survey_range_elem_of in Hi. }
  destruct (decide (b1 <= 0)) as [Hneg|Hpos].
  - exists [], st, l2. split; [|split; [reflexivity|]].
    + now apply enumerate_nothing.
    + apply Forall_forall. intros i Hi. specialize (Hin2 i Hi). lia.
  - assert (Hresp : forall i, 0 <= i < b1 -> responds (met st i) = true).
    { intros i Hi. unfold get_available_cameras in Heq2.
      destruct (scan_cases (Py.range b2) [] st)
        as [(st' & _ & _ & Hall) | (st' & k & j & Heq' & _)];
        [|rewrite Heq' in Heq2; discriminate Heq2].
      unfold met. apply Hall. apply range_lookup. lia. }
    destruct (enumerate_returns b1 st Hresp) as (st1 & Heq1).
    exists (survey (host st) (tick st) (Py.range b1)), st1,
      (survey (host st) (tick st + length (Py.range b1)) (seqZ (0 + b1) (b2 - b1))).
    split; [exact Heq1|]. split.
    + rewrite Hl2. unfold Py.range at 1.
      replace b2 with (b1 + (b2 - b1)) at 1 by lia.
      rewrite seqZ_app by lia. apply survey_app.
    + apply Forall_forall. intros i Hi.
      eapply elem_of_sublist in Hi; [|apply survey_sublist].
      apply elem_of_seqZ in Hi. lia.
Qed.

Lemma wider_scan_extends_witness :
  exists l1 st1 more,
    get_available_cameras 1 (start two_cameras []) = Ret l1 st1 /\
    [0; 2] = (l1 ++ more)%list /\
    Forall (fun i => 1 <= i < 5) more.
Proof.
  apply (wider_scan_extends 1 5 (start two_cameras [])
           (final_state (get_available_cameras 5 (start two_cameras []))));
    [lia | reflexivity].
Defined.

(** ** Automatic selection *)

Lemma select_best_camera_ret_inv (prefer_external : bool) (st st' : State) (idx : Z) :
  select_best_camera prefer_external st = Ret idx st' ->
  exists available st1,
    get_available_cameras default_max_test st = Ret available st1 /\
    idx ∈ available /\
    host st' = host st1 /\ tick st' = tick st1 /\ stdin st' = stdin st1 /\
    held (trace st') = held (trace st1) /\ prompts (trace st') = prompts (trace st1).
Proof.
  intros Hsel.
  destruct (get_available_cameras default_max_test st) as [available st1|e st1|st1] eqn:Heq.
  2, 3: unfold select_best_camera, bind in Hsel; rewrite Heq in Hsel; discriminate Hsel.
  exists available, st1. split; [reflexivity|].
  pose proof (select_best_camera_unfold prefer_external _ _ _ Heq) as H.
  destruct available as [|a [|b r]].
  - rewrite H in Hsel. discriminate Hsel.
  - destruct H as (line & H). rewrite H in Hsel. injection Hsel as <- <-.
    split; [apply list_elem_of_here|]. repeat split.
  - destruct H as (line1 & line2 & H). rewrite H in Hsel. injection Hsel as <- <-.
    split; [|repeat split].
    destruct prefer_external;
      [apply (fold_max_spec a (b :: r)) | apply (fold_min_spec a (b :: r))].
Qed.

Lemma enumerated_in_range (bound : Z) (st st1 : State) (l : list Z) (i : Z) :
  get_available_cameras bound st = Ret l st1 -> i ∈ l -> 0 <= i < bound.
Proof.
  intros Heq Hi. pose proof (enumerate_inv _ _ _ _ Heq) as (Hl & _ & _).
  rewrite Hl in Hi. now apply survey_range_elem_of in Hi.
Qed.

Lemma select_best_camera_in_range_aux (prefer_external : bool) (st st' : State) (idx : Z) :
  select_best_camera prefer_external st = Ret idx st' -> 0 <= idx < 5.
Proof.
  intros Hsel.
  apply select_best_camera_ret_inv in Hsel as (available & st1 & Heq & Hin & _).
  now apply (enumerated_in_range _ _ _ _ _ Heq) in Hin.
Qed.

(** X3. Whatever the preference, an index that [select_best_camera] returns
    is one of the indices 0 to 4 and was found working by the enumeration of
    this very call; the call has made exactly five [VideoCapture] calls,
    shown no prompt, taken nothing from the operator's script and left no
    handle open that was not open before. *)
Theorem select_best_camera_in_range (prefer_external : bool) (st st' : State) (idx : Z) :
  select_best_camera prefer_external st = Ret idx st' ->
  0 <= idx < 5 /\
  probe_result (met st idx) = Working /\
  tick st' = (tick st + 5)%nat /\
  stdin st' = stdin st /\
  prompts (trace st') = prompts (trace st) /\
  held (trace st') = held (trace st).
Proof.
  intros Hsel.
  apply select_best_camera_ret_inv in Hsel
    as (available & st1 & Heq & Hin & _ & Ht & Hs & Hh & Hp).
  pose proof (enumerate_inv _ _ _ _ Heq) as (Hl & (_ & Ht1 & Hs1 & Hh1) & _).
  pose proof (enumeration_unattended _ _ _ _ Heq) as (_ & _ & Hp1).
  rewrite Hl in Hin. apply survey_range_elem_of in Hin as [Hrange Hw].
  change (length (Py.range default_max_test)) with 5%nat in Ht1.
  unfold default_max_test in Hrange.
  repeat split; try lia; try congruence.
Qed.

Lemma select_best_camera_in_range_witness :
  0 <= 2 < 5 /\
  probe_result (met (start two_cameras []) 2) = Working /\
  tick (final_state (select_best_camera true (start two_cameras []))) = (0 + 5)%nat /\
  stdin (final_state (select_best_camera true (start two_cameras []))) = [] /\
  prompts (trace (final_state (select_best_camera true (start two_cameras [])))) = [] /\
  held (trace (final_state (select_best_camera true (start two_cameras [])))) = [].
Proof.
  exact (select_best_camera_in_range true (start two_cameras [])
           (final_state (select_best_camera true (start two_cameras []))) 2 eq_refl).
Defined.

(** X4. The preference changes neither whether [select_best_camera] returns,
    raises or is blocked, nor the state in which it raises or is blocked; when
    both preferences return, from the same state, the index returned for
    built-in cameras is at most the index returned for external ones. *)
Theorem preferences_compared (st : State) :
  match select_best_camera false st, select_best_camera true st with
  | Ret builtin _, Ret external _ => builtin <= external
  | Raise e1 st1, Raise e2 st2 => e1 = e2 /\ st1 = st2
  | Blocked st1, Blocked st2 => st1 = st2
  | _, _ => False
  end.
Proof.
  destruct (get_available_cameras default_max_test st) as [available st1|e st1|st1] eqn:Heq.
  - pose proof (select_best_camera_unfold false _ _ _ Heq) as Hb.
    pose proof (select_best_camera_unfold true _ _ _ Heq) as He.
    destruct available as [|a [|b r]].
    + rewrite Hb, He. now split.
    + destruct Hb as (l1 & ->). destruct He as (l2 & ->). lia.
    + destruct Hb as (l1 & l1' & ->). destruct He as (l2 & l2' & ->).
      pose proof (fold_max_spec a (b :: r)) as [_ Hub].
      pose proof (fold_min_spec a (b :: r)) as [Hin _].
      now apply Hub.
  - unfold select_best_camera, bind. rewrite Heq. now split.
  - unfold select_best_camera, bind. rewrite Heq. reflexivity.
Qed.

(** ** Opening, further *)

Lemma open_resolved_opened (i : Z) (st : State) :
  dev_opens (host st (tick st) i) = true ->
  open_resolved i st
  = Ret (mkCapture (tick st) i (host st (tick st) i))
        (mkState (host st) (S (S (tick st)))
           ((if dev_opens (host st (S (tick st)) i)
             then [EvPrint (opened_line i (host st (S (tick st)) i));
                   EvRelease (S (tick st)); EvOpened (S (tick st)) i]
             else [EvOpenFailed i]) ++ EvOpened (tick st) i :: trace st)
           (stdin st)).
Proof.
  intros Ho. rewrite open_resolved_unfold. cbv zeta. rewrite Ho.
  unfold bind. rewrite get_camera_info_unfold. cbv zeta.
  change (host (step st [EvOpened (tick st) i])) with (host st).
  change (tick (step st [EvOpened (tick st) i])) with (S (tick st)).
  destruct (dev_opens (host st (S (tick st)) i)); reflexivity.
Qed.

Lemma open_resolved_ret_inv (i : Z) (st st' : State) (cap : Capture) :
  open_resolved i st = Ret cap st' ->
  dev_opens (host st (tick st) i) = true.
Proof.
  rewrite open_resolved_unfold. cbv zeta.
  destruct (dev_opens (host st (tick st) i)); [reflexivity|].
  unfold bind, raise.
  destruct (get_available_cameras default_max_test (step st [EvOpenFailed i]));
    discriminate.
Qed.

Lemma enumerate_none (bound : Z) (st : State) :
  (forall i, 0 <= i < bound ->
             responds (met st i) = true /\ probe_result (met st i) <> Working) ->
  exists st1, get_available_cameras bound st = Ret [] st1.
Proof.
  intros Hnone.
  destruct (enumerate_returns bound st) as (st1 & Heq).
  { intros i Hi. now apply Hnone. }
  assert (Hnil : survey (host st) (tick st) (Py.range bound) = []).
  { destruct (survey _ _ _) as [|x l] eqn:Hs; [reflexivity|].
    assert (Hx : x ∈ survey (host st) (tick st) (Py.range bound))
      by (rewrite Hs; apply list_elem_of_here).
    apply survey_range_elem_of in Hx as [Hr Hw].
    destruct (Hnone x Hr) as [_ Hnw]. contradiction. }
  rewrite Hnil in Heq. now exists st1.
Qed.

(** X5. When no index from 0 to 4 is working (all of them answering),
    [open_camera] without an index raises the no-cameras [RuntimeError] of
    the selection: it has made the five calls of the scan and no other, has
    not tried to open any device, and leaves the open handles as they
    were, whatever cameras there are at higher indices. *)
Theorem open_camera_auto_without_cameras (prefer_external : bool) (st : State) :
  (forall i, 0 <= i < 5 ->
             responds (met st i) = true /\ probe_result (met st i) <> Working) ->
  exists st',
    open_camera None prefer_external st = Raise (RuntimeError no_cameras_message) st' /\
    tick st' = (tick st + 5)%nat /\
    held (trace st') = held (trace st).
Proof.
  intros Hnone.
  destruct (enumerate_none default_max_test st Hnone) as (st1 & Heq).
  pose proof (select_best_camera_unfold prefer_external _ _ _ Heq) as Hsel.
  pose proof (enumerate_inv _ _ _ _ Heq) as (_ & (_ & Ht & _ & Hh) & _).
  exists st1. unfold open_camera, bind, resolve_index. rewrite Hsel.
  repeat split; assumption.
Qed.

Lemma open_camera_auto_without_cameras_witness :
  dev_opens (camera_seven 0%nat 7) = true /\
  exists st',
    open_camera None true (start camera_seven [])
    = Raise (RuntimeError no_cameras_message) st' /\
    tick st' = (0 + 5)%nat /\
    held (trace st') = [].
Proof.
  split; [reflexivity|].
  apply (open_camera_auto_without_cameras true (start camera_seven [])).
  intros i Hi. unfold met, start, camera_seven, steady; simpl.
  destruct (i =? 7) eqn:E; [lia|]. split; [reflexivity | discriminate].
Defined.

(** X6. A capture that [open_camera] returns is opened ([isOpened] holds),
    is bound to the index that was given or, without one, to the index that
    the selection returned (then one of 0 to 4), comes from the first
    [VideoCapture] call made after that index was settled, and is open when
    the call returns, on top of the handles that were open before. *)
Theorem open_camera_returns_opened (camera_index : option Z) (prefer_external : bool)
    (st st' : State) (cap : Capture) :
  open_camera camera_index prefer_external st = Ret cap st' ->
  isOpened cap = true /\
  (forall i, camera_index = Some i -> cap_index cap = i) /\
  (camera_index = None -> 0 <= cap_index cap < 5) /\
  exists st1,
    resolve_index camera_index prefer_external st = Ret (cap_index cap) st1 /\
    cap_id cap = tick st1 /\
    cap_dev cap = host st1 (tick st1) (cap_index cap) /\
    held (trace st') = (cap_id cap, cap_index cap) :: held (trace st1).
Proof.
  intros Hopen. unfold open_camera, bind in Hopen.
  destruct (resolve_index camera_index prefer_external st) as [idx st1|e st1|st1] eqn:Hres;
    try discriminate Hopen.
  pose proof (open_resolved_ret_inv _ _ _ _ Hopen) as Ho.
  rewrite (open_resolved_opened _ _ Ho) in Hopen. injection Hopen as <- <-.
  unfold isOpened. simpl. split; [exact Ho|]. split; [|split].
  - intros i ->. simpl in Hres. now injection Hres as ->.
  - intros ->. simpl in Hres.
    now apply select_best_camera_in_range_aux in Hres.
  - exists st1. repeat split.
    destruct (dev_opens (host st1 (S (tick st1)) idx)); simpl;
      rewrite ?Nat.eqb_refl; reflexivity.
Qed.

Lemma open_camera_returns_opened_witness :
  exists cap st',
    open_camera None true (start two_cameras []) = Ret cap st' /\
    isOpened cap = true /\ cap_index cap = 2 /\ cap_id cap = 5%nat /\
    held (trace st') = [(5%nat, 2)].
Proof.
  destruct (open_camera None true (start two_cameras [])) as [cap st'|e st'|st'] eqn:Hopen;
    try (vm_compute in Hopen; discriminate Hopen).
  exists cap, st'. split; [reflexivity|].
  destruct (open_camera_returns_opened None true _ _ _ Hopen)
    as (Hopened & _ & _ & st1 & Hres & Hid & _ & Hheld).
  assert (Hcap : cap_index cap = 2 /\ cap_id cap = 5%nat).
  { vm_compute in Hopen. injection Hopen as <- _. split; reflexivity. }
  destruct Hcap as [Hidx Hid5].
  split; [exact Hopened|]. split; [exact Hidx|]. split; [exact Hid5|].
  rewrite Hheld, Hidx, Hid5. f_equal.
  rewrite Hidx in Hres. vm_compute in Hres. injection Hres as <-. reflexivity.
Defined.

(** X7. With an explicit index whose device opens, [open_camera] returns
    the capture after two [VideoCapture] calls and without reading a frame:
    it succeeds also on a device that cannot deliver frames, or whose read
    would never come back. *)
Theorem open_camera_reads_no_frame (i : Z) (prefer_external : bool) (st : State) :
  dev_opens (host st (tick st) i) = true ->
  exists st',
    open_camera (Some i) prefer_external st
    = Ret (mkCapture (tick st) i (host st (tick st) i)) st' /\
    reads (trace st') = reads (trace st) /\
    tick st' = (tick st + 2)%nat.
Proof.
  intros Ho. rewrite open_camera_explicit, (open_resolved_opened _ _ Ho).
  eexists. split; [reflexivity|]. simpl.
  split; [|lia]. destruct (dev_opens (host st (S (tick st)) i)); reflexivity.
Qed.

Lemma open_camera_reads_no_frame_witness :
  dev_read (steady (fun _ => stuck) 0%nat 0) = ReadBlocks /\
  exists st',
    open_camera (Some 0) true (start (steady (fun _ => stuck)) [])
    = Ret (mkCapture 0 0 stuck) st' /\
    reads (trace st') = [] /\
    tick st' = (0 + 2)%nat.
Proof.
  split; [reflexivity|].
  apply (open_camera_reads_no_frame 0 true (start (steady (fun _ => stuck)) [])).
  reflexivity.
Defined.

(** X8. What [open_camera] prints on success comes from a second session:
    after opening the capture that it returns, it prints one line exactly
    when a second [VideoCapture] on the same index opens, and the width,
    height and backend in that line are those of the second session; when the
    second session is refused, the capture is returned all the same and
    nothing is printed. *)
Theorem open_camera_reports_second_session (i : Z) (prefer_external : bool) (st : State) :
  dev_opens (host st (tick st) i) = true ->
  exists st',
    open_camera (Some i) prefer_external st
    = Ret (mkCapture (tick st) i (host st (tick st) i)) st' /\
    printed (trace st')
    = ((if dev_opens (host st (S (tick st)) i)
        then [opened_line i (host st (S (tick st)) i)] else [])
       ++ printed (trace st))%list.
Proof.
  intros Ho. rewrite open_camera_explicit, (open_resolved_opened _ _ Ho).
  eexists. split; [reflexivity|]. simpl.
  destruct (dev_opens (host st (S (tick st)) i)); reflexivity.
Qed.

Lemma open_camera_reports_second_session_witness :
  (exists st',
      open_camera (Some 0) true (start two_cameras [])
      = Ret (mkCapture 0 0 webcam) st' /\
      printed (trace st') = [Icon.opened +:+ " Camera 0 opened: 640x480 (V4L2)"]) /\
  (exists st',
      open_camera (Some 0) true (start exclusive_camera [])
      = Ret (mkCapture 0 0 webcam) st' /\
      printed (trace st') = []).
Proof.
  split.
  - apply (open_camera_reports_second_session 0 true (start two_cameras [])). reflexivity.
  - apply (open_camera_reports_second_session 0 true (start exclusive_camera [])).
    reflexivity.
Defined.

(** ** Interactive selection, further *)

(** X9. When no index from 0 to 4 is working (all of them answering),
    [list_cameras_interactive] raises [RuntimeError] with the message
    "No cameras detected!" after the five calls of its scan: nothing has been
    printed, no prompt shown and nothing taken from the operator's script. *)
Theorem interactive_without_cameras (st : State) :
  (forall i, 0 <= i < 5 ->
             responds (met st i) = true /\ probe_result (met st i) <> Working) ->
  exists st',
    list_cameras_interactive st = Raise (RuntimeError "No cameras detected!") st' /\
    tick st' = (tick st + 5)%nat /\
    stdin st' = stdin st /\
    prompts (trace st') = prompts (trace st) /\
    printed (trace st') = printed (trace st).
Proof.
  intros Hnone.
  destruct (enumerate_none default_max_test st Hnone) as (st1 & Heq).
  exists st1. rewrite (list_cameras_interactive_unfold _ _ _ Heq).
  pose proof (enumerate_inv _ _ _ _ Heq) as (_ & (_ & Ht & Hs & _) & _).
  pose proof (enumeration_unattended _ _ _ _ Heq) as (_ & _ & Hp).
  pose proof (silent_get_available_cameras default_max_test st) as Hsilent.
  rewrite Heq in Hsilent.
  repeat split; assumption.
Qed.

Lemma interactive_without_cameras_witness :
  exists st',
    list_cameras_interactive (start camera_seven [Types "7"])
    = Raise (RuntimeError "No cameras detected!") st' /\
    tick st' = (0 + 5)%nat /\
    stdin st' = [Types "7"] /\
    prompts (trace st') = [] /\
    printed (trace st') = [].
Proof.
  apply (interactive_without_cameras (start camera_seven [Types "7"])).
  intros i Hi. unfold met, start, camera_seven, steady; simpl.
  destruct (i =? 7) eqn:E; [lia|]. split; [reflexivity | discriminate].
Defined.

Lemma prompt_rounds_in_range (available : list Z) (fuel : nat) :
  forall (st st' : State) (idx : Z),
    while_true fuel (prompt_round available) st = Ret idx st' ->
    idx ∈ available \/ 0 <= idx < 5.
Proof.
  induction fuel as [|n IH]; intros st st' idx Hloop; [discriminate Hloop|].
  simpl in Hloop. unfold bind in Hloop. rewrite prompt_round_unfold in Hloop.
  destruct (stdin st) as [|[line|] rest]; try discriminate Hloop.
  destruct (bool_decide (Py.strip line = "")).
  - destruct (select_best_camera true (answered available rest st))
      as [i st1|e st1|st1] eqn:Hsel; try discriminate Hloop.
    injection Hloop as <- <-. right.
    now apply select_best_camera_in_range_aux in Hsel.
  - destruct (Py.int (Py.strip line)) as [i|]; [|now apply IH in Hloop].
    destruct (Py.contains i available) eqn:Hc; [|now apply IH in Hloop].
    injection Hloop as <- <-. left.
    unfold Py.contains in Hc. now apply bool_decide_eq_true in Hc.
Qed.

(** X10. Whatever the operator types, an index that
    [list_cameras_interactive] returns is one of 0 to 4. *)
Theorem interactive_index_in_range (st st' : State) (idx : Z) :
  list_cameras_interactive st = Ret idx st' -> 0 <= idx < 5.
Proof.
  intros Hrun.
  destruct (get_available_cameras default_max_test st) as [available st1|e st1|st1] eqn:Heq.
  2, 3: unfold list_cameras_interactive, bind in Hrun; rewrite Heq in Hrun;
    discriminate Hrun.
  rewrite (list_cameras_interactive_unfold _ _ _ Heq) in Hrun.
  assert (Hin : forall i, i ∈ available -> 0 <= i < 5)
    by (intros i; apply (enumerated_in_range _ _ _ _ _ Heq)).
  destruct available as [|a [|b r]].
  - discriminate Hrun.
  - injection Hrun as <- _. apply Hin, list_elem_of_here.
  - unfold prompt_loop in Hrun. apply prompt_rounds_in_range in Hrun as [Hi|Hi];
      [now apply Hin | exact Hi].
Qed.

Lemma interactive_index_in_range_witness :
  returned (list_cameras_interactive (start one_camera [])) = Some 3 /\
  0 <= 3 < 5.
Proof.
  split; [reflexivity|].
  exact (interactive_index_in_range (start one_camera [])
           (final_state (list_cameras_interactive (start one_camera [])))
           3 eq_refl).
Defined.

(** ** test_all_cameras.py *)

Lemma keep_if_found_unfold (i : Z) (acc : list Z) (st : State) :
  keep_if_found i acc st =
    match test_camera i st with
    | Ret true st' => Ret (acc ++ [i])%list st'
    | Ret false st' => Ret acc st'
    | Raise e st' => Raise e st'
    | Blocked st' => Blocked st'
    end.
Proof.
  unfold keep_if_found, bind.
  destruct (test_camera i st) as [[|] st'|e st'|st']; reflexivity.
Qed.

Lemma scans_agree (idxs : list Z) :
  forall (acc : list Z) (sa sb : State),
    same_devices sa sb ->
    scans_alike (for_in idxs acc keep_if_found sa) (for_in idxs acc probe_into sb).
Proof.
  induction idxs as [|i rest IH]; intros acc sa sb Hsame.
  - simpl. now split.
  - destruct Hsame as (Hh & Ht & Hheld & Hs).
    simpl. unfold bind.
    rewrite keep_if_found_unfold, test_camera_unfold, probe_into_unfold. cbv zeta.
    rewrite Hh, Ht.
    destruct (dev_opens (host sb (tick sb) i));
      [destruct (dev_read (host sb (tick sb) i))|].
    3: { unfold scans_alike, same_devices, step; simpl. rewrite Hh, Ht, Hheld, Hs.
         repeat split. }
    all: apply IH; unfold same_devices, step; simpl;
      rewrite ?Nat.eqb_refl, Hh, Ht, Hheld, Hs; repeat split.
Qed.

(** X11. The scan of [main] in test_all_cameras.py, which keeps the indices
    for which [test_camera] answers true, and [get_available_cameras 6]
    agree on every host: from the same state both return the same list, or
    both are blocked, and neither raises; they have then made the same calls
    and hold the same handles. *)
Theorem main_scan_agrees (st : State) :
  returned (TestAllCameras.scan st) = returned (get_available_cameras 6 st) /\
  same_devices (final_state (TestAllCameras.scan st))
               (final_state (get_available_cameras 6 st)) /\
  (forall e st', TestAllCameras.scan st <> Raise e st').
Proof.
  assert (Hsame : same_devices st st) by (unfold same_devices; repeat split).
  pose proof (scans_agree (Py.range 6) [] st st Hsame) as H.
  change (for_in (Py.range 6) [] keep_if_found st) with (TestAllCameras.scan st) in H.
  change (for_in (Py.range 6) [] probe_into st) with (get_available_cameras 6 st) in H.
  unfold scans_alike in H.
  destruct (TestAllCameras.scan st) as [la sa|e sa|sa];
    destruct (get_available_cameras 6 st) as [lb sb|e' sb|sb]; try contradiction.
  - destruct H as [-> H]. simpl. repeat split; try apply H. discriminate.
  - simpl. repeat split; try apply H. discriminate.
Qed.

(** X12. When the six indices 0 to 5 answer, [main] of test_all_cameras.py
    runs the live preview exactly when some camera is working, and then on
    the ascending list of precisely the working indices; otherwise it prints
    the no-working-cameras line and returns.  When the preview starts (or
    [main] returns without it) six calls have been made, every handle of the
    scan is released and nothing is taken from the operator's script. *)
Theorem test_main_previews_working (preview : list Z -> M unit) (st : State) :
  (forall i, 0 <= i < 6 -> responds (met st i) = true) ->
  exists l st1,
    (forall i, i ∈ l <-> 0 <= i < 6 /\ probe_result (met st i) = Working) /\
    StronglySorted Z.lt l /\
    tick st1 = (tick st + 6)%nat /\
    held (trace st1) = held (trace st) /\
    stdin st1 = stdin st /\
    TestAllCameras.main preview st
    = match l with
      | [] => Ret tt (log (EvPrint no_working_line) (summarized l st1))
      | _ => preview l (preview_lines (summarized l st1))
      end.
Proof.
  intros Hresp.
  destruct (enumerate_returns 6 st Hresp) as (sb & Heq).
  pose proof (enumerate_inv _ _ _ _ Heq) as (_ & (_ & Ht & Hs & Hh) & Hsorted).
  set (header := EvPrint (TestAllCameras.icon_search
                          +:+ " Scanning for available cameras..." +:+ Py.nl)).
  assert (Hsame : same_devices (log header st) st) by (unfold same_devices; repeat split).
  pose proof (scans_agree (Py.range 6) [] _ _ Hsame) as H.
  change (for_in (Py.range 6) [] probe_into st) with (get_available_cameras 6 st) in H.
  rewrite Heq in H. unfold scans_alike in H.
  destruct (for_in (Py.range 6) [] keep_if_found (log header st))
    as [la sa|e sa|sa] eqn:Hscan; try contradiction.
  destruct H as [-> (_ & Hta & Hha & Hsa)].
  exists (survey (host st) (tick st) (Py.range 6)), sa.
  split; [intros i; apply survey_range_elem_of|].
  split; [exact Hsorted|].
  change (length (Py.range 6)) with 6%nat in Ht.
  split; [congruence|]. split; [congruence|]. split; [congruence|].
  unfold TestAllCameras.main. unfold bind at 1. unfold print at 1, emit.
  fold header. unfold bind at 1.
  change (TestAllCameras.scan (log header st))
    with (for_in (Py.range 6) [] keep_if_found (log header st)).
  rewrite Hscan.
  destruct (survey (host st) (tick st) (Py.range 6)) as [|a r]; reflexivity.
Qed.

Lemma test_main_previews_working_witness :
  exists l st1,
    (forall i, i ∈ l <->
               0 <= i < 6 /\ probe_result (met (start three_kinds []) i) = Working) /\
    StronglySorted Z.lt l /\
    tick st1 = (0 + 6)%nat /\
    held (trace st1) = [] /\
    stdin st1 = [] /\
    TestAllCameras.main (fun _ => ret tt) (start three_kinds [])
    = match l with
      | [] => Ret tt (log (EvPrint no_working_line) (summarized l st1))
      | _ => ret tt (preview_lines (summarized l st1))
      end.
Proof.
  apply (test_main_previews_working (fun _ => ret tt) (start three_kinds [])).
  intros i _. unfold met, start, three_kinds, steady; simpl.
  destruct ((i =? 0) || (i =? 2)); [reflexivity|]. destruct (i =? 1); reflexivity.
Defined.

(** ** identify_usb_camera.py *)

Lemma identify_main_unfold (show_both : Capture -> Capture -> M unit) (st : State) :
  IdentifyUsbCamera.main show_both st =
    let st2 := both_constructed st in
    if negb (isOpened (cap0_of st)) then
      Ret None
        (final_state
           (finalize (cap1_of st)
              (log (EvPrint (IdentifyUsbCamera.icon_cross +:+ " Camera 0 not available"))
                   st2)))
    else if negb (isOpened (cap1_of st)) then
      Ret None
        (final_state
           (cap_release (cap0_of st)
              (log (EvPrint (IdentifyUsbCamera.icon_cross +:+ " Camera 1 not available"))
                   st2)))
    else
      (do! print (IdentifyUsbCamera.icon_ok +:+ " Both cameras opened successfully") in
       do! print (Py.nl +:+ IdentifyUsbCamera.icon_pin +:+ " Instructions:") in
       do! print "   - LEFT window = Camera 0" in
       do! print "   - RIGHT window = Camera 1" in
       do! print "   - Identify which one is your USB camera" in
       do! print "   - Press 'q' to quit" in
       do! print (Py.nl +:+ "Showing both cameras now..." +:+ Py.nl) in
       do! show_both (cap0_of st) (cap1_of st) in
       do! cap_release (cap0_of st) in
       do! cap_release (cap1_of st) in
       do! print (Py.nl +:+ Py.times "=" 50) in
       do! print "Which camera is your USB camera?" in
       let! line := input "Enter 0 or 1: " in
       let choice := Py.strip line in
       if bool_decide (choice ∈ ["0"; "1"]) then
         do! IdentifyUsbCamera.report choice in
         ret (Some choice)
       else
         do! print (IdentifyUsbCamera.icon_cross +:+ " Invalid choice") in
         ret None) st2.
Proof.
  destruct st as [h t tr s].
  unfold both_constructed, after_open, cap0_of, cap1_of.
  cbv [IdentifyUsbCamera.main bind print emit log VideoCapture isOpened final_state
       cap_dev host tick trace stdin].
  destruct (h t 0) as [[|] r0 w0 g0 b0];
    destruct (h (S t) 2) as [[|] r2 w2 g2 b2]; reflexivity.
Qed.

Lemma both_constructed_frame (st : State) :
  host (both_constructed st) = host st /\
  tick (both_constructed st) = S (S (tick st)) /\
  stdin (both_constructed st) = stdin st /\
  prompts (trace (both_constructed st)) = prompts (trace st) /\
  released (trace (both_constructed st)) = released (trace st) /\
  held (trace (both_constructed st))
  = ((if isOpened (cap1_of st) then [(S (tick st), 2)] else []) ++
     (if isOpened (cap0_of st) then [(tick st, 0)] else []) ++ held (trace st))%list.
Proof.
  unfold both_constructed, after_open, VideoCapture, cap0_of, cap1_of, isOpened, log.
  simpl. repeat split;
    destruct (dev_opens (host st (S (tick st)) 2)), (dev_opens (host st (tick st) 0));
    reflexivity.
Qed.

(** X13. [main] of identify_usb_camera.py constructs both captures, on
    index 0 and on index 2, before it checks either.  When index 0 does not
    open it returns [None] without any call of [release]: a session that
    opened on index 2 is open until [main] returns and is closed only by the
    finaliser of its capture.  When index 0 opens and index 2 does not, [main]
    calls [release] on the capture of index 0 and returns [None].  Either way
    the handles open afterwards are those that were open before, no prompt is
    shown and nothing is taken from the operator's script. *)
Theorem identify_early_exits (show_both : Capture -> Capture -> M unit) (st : State) :
  (isOpened (cap0_of st) = false ->
   exists st',
     IdentifyUsbCamera.main show_both st = Ret None st' /\
     stdin st' = stdin st /\
     prompts (trace st') = prompts (trace st) /\
     released (trace st') = released (trace st) /\
     held (trace st') = held (trace st) /\
     (isOpened (cap1_of st) = true ->
      exists past,
        trace st' = EvFinalized (S (tick st)) :: past /\
        held past = (S (tick st), 2) :: held (trace st))) /\
  (isOpened (cap0_of st) = true -> isOpened (cap1_of st) = false ->
   exists st',
     IdentifyUsbCamera.main show_both st = Ret None st' /\
     stdin st' = stdin st /\
     prompts (trace st') = prompts (trace st) /\
     released (trace st') = tick st :: released (trace st) /\
     held (trace st') = held (trace st)).
Proof.
  pose proof (both_constructed_frame st) as (_ & _ & Hs & Hp & Hr & Hh).
  split.
  - intros H0. rewrite identify_main_unfold. cbv zeta. rewrite H0. simpl negb. cbv iota.
    rewrite H0 in Hh. unfold finalize.
    remember (both_constructed st) as st2 eqn:Hst2. clear Hst2.
    destruct (isOpened (cap1_of st)) eqn:H1; cbn [app] in Hh;
      (eexists; split; [reflexivity|]); unfold emit, ret, log; simpl.
    + rewrite Hh. simpl. rewrite Nat.eqb_refl.
      repeat split; try assumption.
      intros _. eexists. split; [reflexivity|]. simpl. exact Hh.
    + repeat split; try assumption. discriminate.
  - intros H0 H1. rewrite identify_main_unfold. cbv zeta. rewrite H0, H1.
    simpl negb. cbv iota. rewrite H0, H1 in Hh. cbn [app] in Hh.
    remember (both_constructed st) as st2 eqn:Hst2. clear Hst2.
    eexists. split; [reflexivity|].
    unfold cap_release. rewrite H0. unfold emit, log. simpl.
    rewrite Hh, Hr. simpl. rewrite Nat.eqb_refl. repeat split; assumption.
Qed.

(** X14. When both cameras open and the side-by-side display comes back
    having opened and released nothing, [main] of identify_usb_camera.py
    releases both captures before it asks its question: whatever the operator
    then does, the handles open afterwards are those that were open before
    [main].  It shows one prompt and takes one action from the script; for a
    typed line it returns the stripped line when that is "0" or "1" and
    [None] otherwise, and an interrupt at the prompt is raised as
    [KeyboardInterrupt]. *)
Theorem identify_answer (show_both : Capture -> Capture -> M unit) (st : State)
    (action : Operator) (rest : list Operator) :
  isOpened (cap0_of st) = true ->
  isOpened (cap1_of st) = true ->
  keeps_handles (show_both (cap0_of st) (cap1_of st)) ->
  stdin st = action :: rest ->
  exists st',
    IdentifyUsbCamera.main show_both st
    = match action with
      | Types line => Ret (answer_of line) st'
      | Interrupts => Raise KeyboardInterrupt st'
      end /\
    held (trace st') = held (trace st) /\
    stdin st' = rest /\
    prompts (trace st') = "Enter 0 or 1: " :: prompts (trace st).
Proof.
  intros H0 H1 Hkeep Hin.
  rewrite identify_main_unfold. cbv zeta. rewrite H0, H1. simpl negb. cbv iota.
  pose proof (both_constructed_frame st) as (_ & _ & Hs & Hp & _ & Hh).
  remember (both_constructed st) as st2 eqn:Hst2. clear Hst2.
  rewrite H0, H1 in Hh. simpl in Hh.
  cbv [bind print emit].
  match goal with
  | |- context [show_both _ _ ?s] =>
      destruct (Hkeep s) as (st3 & Hshow & Hh3 & Hp3 & Hs3); rewrite Hshow
  end.
  unfold log in Hh3, Hp3, Hs3. simpl in Hh3, Hp3, Hs3.
  unfold cap_release. rewrite H0, H1. cbv [emit]. unfold input. cbv zeta.
  unfold log at 1 2 3 4 5. simpl stdin. rewrite Hs3, Hs, Hin.
  assert (Hreleased :
            held (EvRelease (cap_id (cap1_of st))
                    :: EvRelease (cap_id (cap0_of st)) :: trace st3) = held (trace st)).
  { simpl. rewrite Hh3, Hh. simpl.
    replace (tick st =? S (tick st))%nat with false by (symmetry; apply Nat.eqb_neq; lia).
    simpl. now rewrite !Nat.eqb_refl. }
  assert (Hprompts : prompts (trace st3) = prompts (trace st)) by congruence.
  assert (Hprompts' : "Enter 0 or 1: " :: prompts (trace st3)
                      = "Enter 0 or 1: " :: prompts (trace st)) by (f_equal; exact Hprompts).
  destruct action as [line|].
  - unfold answer_of. destruct (bool_decide (Py.strip line ∈ ["0"; "1"])).
    + unfold IdentifyUsbCamera.report. cbv [bind print emit ret].
      eexists. split; [reflexivity|]. split; [|split].
      * etransitivity; [|exact Hreleased]. reflexivity.
      * reflexivity.
      * etransitivity; [|exact Hprompts']. reflexivity.
    + cbv [ret]. eexists. split; [reflexivity|]. split; [|split].
      * etransitivity; [|exact Hreleased]. reflexivity.
      * reflexivity.
      * etransitivity; [|exact Hprompts']. reflexivity.
  - eexists. split; [reflexivity|]. split; [|split].
    + etransitivity; [|exact Hreleased]. reflexivity.
    + reflexivity.
    + etransitivity; [|exact Hprompts']. reflexivity.
Qed.

Lemma identify_early_exits_witness :
  (exists st',
      IdentifyUsbCamera.main one_look
        (start (steady (fun i => if i =? 2 then webcam else absent)) [Types "0"])
      = Ret None st' /\
      stdin st' = [Types "0"] /\
      prompts (trace st') = [] /\
      released (trace st') = [] /\
      held (trace st') = [] /\
      (true = true ->
       exists past, trace st' = EvFinalized 1 :: past /\ held past = [(1%nat, 2)])) /\
  (exists st',
      IdentifyUsbCamera.main one_look
        (start (steady (fun i => if i =? 0 then webcam else absent)) [Types "0"])
      = Ret None st' /\
      stdin st' = [Types "0"] /\
      prompts (trace st') = [] /\
      released (trace st') = [0%nat] /\
      held (trace st') = []).
Proof.
  split.
  - apply (identify_early_exits one_look
             (start (steady (fun i => if i =? 2 then webcam else absent)) [Types "0"])).
    reflexivity.
  - apply (identify_early_exits one_look
             (start (steady (fun i => if i =? 0 then webcam else absent)) [Types "0"]));
      reflexivity.
Defined.

Lemma identify_answer_witness :
  exists st',
    IdentifyUsbCamera.main one_look (start two_cameras [Types " 1 "; Types "x"])
    = Ret (Some "1") st' /\
    held (trace st') = [] /\
    stdin st' = [Types "x"] /\
    prompts (trace st') = ["Enter 0 or 1: "].
Proof.
  apply (identify_answer one_look (start two_cameras [Types " 1 "; Types "x"])
           (Types " 1 ") [Types "x"]); try reflexivity.
  intros st. eexists. split; [reflexivity|]. repeat split.
Defined.

Lemma enumeration_frame_witness :
  get_available_cameras (-1) (start two_cameras []) = Ret [] (start two_cameras []) /\
  tick (final_state (get_available_cameras 5 (start two_cameras []))) = (0 + Z.to_nat 5)%nat.
Proof.
  split.
  - apply (enumeration_frame (-1) (start two_cameras [])). lia.
  - destruct (enumeration_frame 5 (start two_cameras [])) as (_ & Hframe & _).
    apply (Hframe [0; 2]). reflexivity.
Defined.

(** ** Opening without an index, end to end *)

(** X15. Opening without an index, end to end: when the indices 0 to 4
    answer, the policy of the given preference picks [idx] among those that
    work, and the device at [idx] still opens at the call that follows the
    scan, [open_camera] returns the capture of that call, bound to [idx];
    it has made seven calls in all (five of the scan, the opening, and the
    second session of [get_camera_info]) and only the returned capture is
    open on top of the handles that were open before. *)
Theorem open_camera_auto_opens_selected (prefer_external : bool) (st : State) (idx : Z) :
  (forall i, 0 <= i < 5 -> responds (met st i) = true) ->
  spec_auto_select prefer_external (survey (host st) (tick st) (Py.range 5)) = Some idx ->
  dev_opens (host st (tick st + 5)%nat idx) = true ->
  exists st',
    open_camera None prefer_external st
    = Ret (mkCapture (tick st + 5) idx (host st (tick st + 5)%nat idx)) st' /\
    tick st' = (tick st + 7)%nat /\
    held (trace st') = ((tick st + 5)%nat, idx) :: held (trace st).
Proof.
  intros Hresp Hpick Hopens.
  destruct (enumerate_returns default_max_test st Hresp) as (st1 & Heq).
  pose proof (select_best_camera_returned prefer_external _ _ _ Heq) as Hret.
  change (Py.range default_max_test) with (Py.range 5) in Hret.
  rewrite Hpick in Hret.
  destruct (select_best_camera prefer_external st) as [i s|e s|s] eqn:Hsel;
    try discriminate Hret.
  injection Hret as ->.
  pose proof (select_best_camera_ret_inv _ _ _ _ Hsel)
    as (available & st1' & Heq' & _ & Hh & Ht & _ & Hheld & _).
  rewrite Heq in Heq'. injection Heq' as <- <-.
  pose proof (enumerate_inv _ _ _ _ Heq) as (_ & (Hh1 & Ht1 & _ & Hheld1) & _).
  change (length (Py.range default_max_test)) with 5%nat in Ht1.
  assert (Hts : tick s = (tick st + 5)%nat) by congruence.
  assert (Hhs : host s = host st) by congruence.
  unfold open_camera, bind, resolve_index. rewrite Hsel.
  rewrite open_resolved_opened by (rewrite Hhs, Hts; exact Hopens).
  rewrite Hhs, Hts. eexists. split; [reflexivity|]. simpl. split; [lia|].
  destruct (dev_opens (host st (S (tick st + 5)) idx)); simpl;
    rewrite ?Nat.eqb_refl; congruence.
Qed.

Lemma open_camera_auto_opens_selected_witness :
  exists st',
    open_camera None true (start two_cameras [])
    = Ret (mkCapture (0 + 5) 2 (two_cameras (0 + 5)%nat 2)) st' /\
    tick st' = (0 + 7)%nat /\
    held (trace st') = ((0 + 5)%nat, 2) :: [].
Proof.
  apply (open_camera_auto_opens_selected true (start two_cameras []) 2);
    [|reflexivity|reflexivity].
  intros i _. unfold met, start, two_cameras, steady; simpl.
  destruct ((i =? 0) || (i =? 2)); reflexivity.
Defined.
